(** * The greeting and health Lambda handlers

    A shallow embedding of [src/handlers/hello.js] and
    [src/handlers/health.js], and the properties of the request/response
    contract they implement.

    The handlers are JavaScript: the event is a dynamically typed value,
    the process (environment variables, clock, console, memory statistics)
    is reached through globals that the unit tests replace by throwing
    stubs, and a failure is an exception.  The embedding therefore has
    - a type [value] of JavaScript values as [JSON.parse] builds them;
    - a record [Runtime] of the process capabilities, each of which may
      throw;
    - a state-and-exception monad [M] in which the bodies of the handlers
      are written statement by statement. *)

From Stdlib Require Import ZArith QArith Ascii String DecimalString.
From stdpp Require Import base option list strings gmap.

Local Open Scope string_scope.
Local Open Scope Z_scope.

(** ** JavaScript values and the operators the handlers use *)

Module Js.

(** Values as [JSON.parse] delivers them, plus [undefined].  A string is
    the sequence of the bytes of its UTF-8 encoding.  An object is the list
    of its own properties in enumeration order; a property is read by its
    first occurrence.  Numbers are the integral ones: the handlers compute
    with byte counts and millisecond clocks only. *)
#[warnings="-register-all"]
Inductive value : Type :=
  | VUndefined
  | VNull
  | VBool (b : bool)
  | VNum (n : Z)
  | VStr (s : string)
  | VArr (items : list value)
  | VObj (props : list (string * value)).

(** An [Error] object as far as the handlers look at it. *)
Record JsError : Type := mkError { message : string; stack : string }.

(** [new TypeError(msg)]; the frames of the stack are engine specific. *)
Definition TypeError (msg : string) : JsError :=
  mkError msg ("TypeError: " +:+ msg).

(** Own-property lookup in a property list. *)
Fixpoint lookup_prop (k : string) (ps : list (string * value)) : value :=
  match ps with
  | [] => VUndefined
  | (k', v) :: ps' => if String.eqb k k' then v else lookup_prop k ps'
  end.

(** [v.k].  Reading a property of [undefined] or [null] throws a
    [TypeError]; on an object it is the own property or [undefined].  On a
    primitive or an array the result is [undefined] for every name the
    handlers read ([requestContext], [requestId], [identity], [sourceIp],
    [path], [httpMethod]): none of them is inherited from a prototype. *)
Definition get (v : value) (k : string) : JsError + value :=
  match v with
  | VUndefined =>
      inl (TypeError ("Cannot read properties of undefined (reading '" +:+ k +:+ "')"))
  | VNull =>
      inl (TypeError ("Cannot read properties of null (reading '" +:+ k +:+ "')"))
  | VObj ps => inr (lookup_prop k ps)
  | _ => inr VUndefined
  end.

(** [v?.k]: short-circuits to [undefined] on [undefined] and [null]. *)
Definition get_opt (v : value) (k : string) : value :=
  match v with
  | VObj ps => lookup_prop k ps
  | _ => VUndefined
  end.

(** [ToBoolean]. *)
Definition truthy (v : value) : bool :=
  match v with
  | VUndefined | VNull => false
  | VBool b => b
  | VNum n => negb (n =? 0)
  | VStr s => negb (String.eqb s "")
  | VArr _ | VObj _ => true
  end.

(** [a || b] with [b] free of effects. *)
Definition or_else (a b : value) : value := if truthy a then a else b.

(** [v !== s] for a string literal [s]. *)
Definition strict_neq_str (v : value) (s : string) : bool :=
  match v with
  | VStr s' => negb (String.eqb s' s)
  | _ => true
  end.

(** [Object.values(o)] of an object. *)
Definition Object_values (o : value) : list value :=
  match o with
  | VObj ps => map snd ps
  | _ => []
  end.

(** Defining property [k] in an object under construction: a key that is
    already there keeps its place and takes the new value. *)
Fixpoint define_prop (k : string) (v : value) (ps : list (string * value))
  : list (string * value) :=
  match ps with
  | [] => [(k, v)]
  | (k', v') :: ps' =>
      if String.eqb k k' then (k, v) :: ps' else (k', v') :: define_prop k v ps'
  end.

(** [{ ...base, ...data }] where [base] is the list of the properties
    written before the spread. *)
Definition spread (base data : list (string * value)) : list (string * value) :=
  fold_left (fun acc kv => define_prop (fst kv) (snd kv) acc) data base.

(** Decimal numeral of an integer, as [String(n)] and [JSON.stringify(n)]
    print an integer of magnitude at most [2^53].  Beyond that the doubles
    of the source round, and from [10^21] on they print in exponent
    notation: there this numeral is not what the source prints. *)
Definition Z_to_string (n : Z) : string :=
  NilZero.string_of_int (Z.to_int n).

(** *** JSON.stringify *)

(** The one-character string holding a double quote. *)
Definition dquote : string := String (ascii_of_N 34) "".

Definition hex_digit (n : N) : ascii :=
  if (n <? 10)%N then ascii_of_N (48 + n) else ascii_of_N (87 + n).

(** The escape of one byte inside a JSON string literal. *)
Definition escape_byte (c : ascii) : string :=
  let n := N_of_ascii c in
  if (n =? 34)%N then "\" +:+ dquote
  else if (n =? 92)%N then "\\"
  else if (n =? 8)%N then "\b"
  else if (n =? 9)%N then "\t"
  else if (n =? 10)%N then "\n"
  else if (n =? 12)%N then "\f"
  else if (n =? 13)%N then "\r"
  else if (n <? 32)%N then
    "\u00" +:+ String (hex_digit (n / 16)) (String (hex_digit (n mod 16)) "")
  else String c "".

Fixpoint escape (s : string) : string :=
  match s with
  | EmptyString => ""
  | String c s' => escape_byte c +:+ escape s'
  end.

Definition quote (s : string) : string := dquote +:+ escape s +:+ dquote.

Fixpoint join (sep : string) (l : list string) : string :=
  match l with
  | [] => ""
  | [x] => x
  | x :: l' => x +:+ sep +:+ join sep l'
  end.

(** Serialisation of a value that is not [undefined] at top level.  Inside
    an array [undefined] prints as [null]; inside an object a property
    whose value is [undefined] is left out. *)
Fixpoint serialize (v : value) : string :=
  match v with
  | VUndefined | VNull => "null"
  | VBool b => if b then "true" else "false"
  | VNum n => Z_to_string n
  | VStr s => quote s
  | VArr items => "[" +:+ join "," (map serialize items) +:+ "]"
  | VObj props =>
      "{" +:+
      join ","
        ((fix members (ps : list (string * value)) : list string :=
            match ps with
            | [] => []
            | (k, VUndefined) :: ps' => members ps'
            | (k, x) :: ps' => (quote k +:+ ":" +:+ serialize x) :: members ps'
            end) props)
      +:+ "}"
  end.

(** [JSON.stringify(v)]: [undefined] for [undefined], else a string. *)
Definition JSON_stringify (v : value) : value :=
  match v with
  | VUndefined => VUndefined
  | _ => VStr (serialize v)
  end.

End Js.

(** ** The process: capabilities, effects and exceptions *)

Module Proc.
Import Js.

(** What the handlers reach through globals.  Each capability is an
    outcome per call: a normal result or a thrown error (the unit tests
    install stubs of [Date.now] and [process.memoryUsage] that throw).
    Calls of the clock, of [new Date().toISOString()] and of [console.log]
    are numbered from 0 within one invocation. *)
Record Runtime : Type := mkRuntime {
  env : gmap string string;              (* process.env *)
  memoryUsage : JsError + Z;             (* process.memoryUsage().heapUsed, bytes *)
  Date_now : nat -> JsError + Z;         (* Date.now(), milliseconds *)
  toISOString : nat -> JsError + string; (* new Date().toISOString() *)
  console_log : nat -> option JsError    (* console.log(line): None returns *)
}.

(** What one invocation has done so far. *)
Record State : Type := mkState {
  clock_reads : nat;
  dates : nat;
  log_calls : nat;
  stdout : list value
}.

Definition initial : State := mkState 0 0 0 [].

(** Computations that read the runtime, count their calls and may throw. *)
Definition M (A : Type) : Type := Runtime -> State -> (JsError + A) * State.

Definition ret {A} (a : A) : M A := fun _ s => (inr a, s).

Definition bind {A B} (m : M A) (k : A -> M B) : M B :=
  fun w s =>
    match m w s with
    | (inr a, s') => k a w s'
    | (inl e, s') => (inl e, s')
    end.

Definition throw {A} (e : JsError) : M A := fun _ s => (inl e, s).

(** An operation of [Js] that may throw and has no other effect. *)
Definition lift {A} (r : JsError + A) : M A := fun _ s => (r, s).

(** [try { body } catch (error) { handler error }]. *)
Definition try_catch {A} (body : M A) (handler : JsError -> M A) : M A :=
  fun w s =>
    match body w s with
    | (inl e, s') => handler e w s'
    | r => r
    end.

Notation "'let*' x ':=' m 'in' k" := (bind m (fun x => k))
  (at level 10, x name, m at level 100, k at level 200).
Notation "m ';;' k" := (bind m (fun _ => k))
  (at level 100, k at level 200, right associativity).

(** [process.env.NAME]: a string, or [undefined] when the variable is not
    set. *)
Definition process_env (name : string) : M value :=
  fun w s =>
    (inr (match env w !! name with Some v => VStr v | None => VUndefined end), s).

(** [process.memoryUsage().heapUsed]. *)
Definition process_memoryUsage_heapUsed : M Z :=
  fun w s => (memoryUsage w, s).

(** [Date.now()]. *)
Definition Date_now_call : M Z :=
  fun w s =>
    (Date_now w (clock_reads s),
     mkState (S (clock_reads s)) (dates s) (log_calls s) (stdout s)).

(** [new Date().toISOString()]. *)
Definition new_Date_toISOString : M string :=
  fun w s =>
    (toISOString w (dates s),
     mkState (clock_reads s) (S (dates s)) (log_calls s) (stdout s)).

(** [console.log(line)]: the line reaches standard output unless the call
    throws. *)
Definition console_log_call (line : value) : M unit :=
  fun w s =>
    match console_log w (log_calls s) with
    | None =>
        (inr tt,
         mkState (clock_reads s) (dates s) (S (log_calls s)) (stdout s ++ [line]))
    | Some e =>
        (inl e, mkState (clock_reads s) (dates s) (S (log_calls s)) (stdout s))
    end.

(** The structured logging helper, the same in both handler files:
    [console.log(JSON.stringify({timestamp, level, message, ...data}))]. *)
Definition log (level message : string) (data : list (string * value)) : M unit :=
  let* timestamp := new_Date_toISOString in
  console_log_call
    (JSON_stringify
       (VObj (spread [("timestamp", VStr timestamp);
                      ("level", VStr level);
                      ("message", VStr message)] data))).

(** The promise an [async] function returns, once settled. *)
Inductive Promise : Type :=
  | Resolved (v : value)
  | Rejected (e : JsError).

(** One invocation of an [async] handler body in runtime [w]. *)
Definition invoke (body : M value) (w : Runtime) : Promise * State :=
  match body w initial with
  | (inr v, s) => (Resolved v, s)
  | (inl e, s) => (Rejected e, s)
  end.

End Proc.

(** ** src/handlers/hello.js *)

Module Hello.
Import Js Proc.

Definition log := Proc.log.

(** The [try] block of [handler]. *)
Definition attempt (event requestId : value) : M value :=
     let* path := lift (get event "path") in
     let* httpMethod := lift (get event "httpMethod") in
     let* requestContext := lift (get event "requestContext") in
     let sourceIp := get_opt (get_opt requestContext "identity") "sourceIp" in
     log "INFO" "Processing Hello World request"
       [("requestId", requestId); ("path", path); ("method", httpMethod);
        ("sourceIp", sourceIp)] ;;
     let* startTime := Date_now_call in
     let* timestamp := new_Date_toISOString in
     let* API_VERSION := process_env "API_VERSION" in
     let* ENVIRONMENT := process_env "ENVIRONMENT" in
     let responseData :=
       VObj [("message", VStr "Hello World!");
             ("timestamp", VStr timestamp);
             ("requestId", requestId);
             ("version", or_else API_VERSION (VStr "1.0.0"));
             ("environment", or_else ENVIRONMENT (VStr "dev"))] in
     let* now := Date_now_call in
     let processingTime := now - startTime in
     log "INFO" "Successfully processed request"
       [("requestId", requestId); ("processingTime", VNum processingTime)] ;;
     ret (VObj
       [("statusCode", VNum 200);
        ("headers", VObj
           [("Content-Type", VStr "application/json");
            ("Access-Control-Allow-Origin", VStr "*");
            ("Access-Control-Allow-Headers",
             VStr "Content-Type,X-Amz-Date,Authorization,X-Api-Key,X-Amz-Security-Token");
            ("Access-Control-Allow-Methods", VStr "GET,OPTIONS");
            ("X-Request-Id", requestId);
            ("X-Processing-Time", VStr (Z_to_string processingTime +:+ "ms"))]);
        ("body", JSON_stringify responseData)]).

(** The [catch (error)] block of [handler]. *)
Definition recover (requestId : value) (error : JsError) : M value :=
     log "ERROR" "Failed to process request"
       [("requestId", requestId);
        ("error", VStr (message error));
        ("stack", VStr (stack error))] ;;
     ret (VObj
       [("statusCode", VNum 500);
        ("headers", VObj
           [("Content-Type", VStr "application/json");
            ("Access-Control-Allow-Origin", VStr "*");
            ("X-Request-Id", requestId)]);
        ("body", JSON_stringify (VObj
           [("error", VStr "Internal Server Error");
            ("message", VStr "An error occurred while processing your request");
            ("requestId", requestId)]))]).

(** [exports.handler]: the request id is taken before the [try]
    statement. *)
Definition handler (event : value) : M value :=
  let* requestContext := lift (get event "requestContext") in
  let requestId := or_else (get_opt requestContext "requestId") (VStr "unknown") in
  try_catch (attempt event requestId) (recover requestId).

End Hello.

(** ** src/handlers/health.js *)

Module Health.
Import Js Proc.

Definition log := Proc.log.

(** [percentUsed > bound].  The source computes in double precision; for
    an integral byte count the quotient by [2^27] is exact and the product
    by 100 is exact between 64 and 128, so both comparisons agree with the
    ones on rationals. *)
Definition Qgtb (a b : Q) : bool := negb (Qle_bool a b).

Definition maxMemory : Z := 128 * 1024 * 1024.

Definition percentUsed (heapUsed : Z) : Q :=
  ((inject_Z heapUsed / inject_Z maxMemory) * 100)%Q.

Definition checkMemory : M string :=
  let* heapUsed := process_memoryUsage_heapUsed in
  if Qgtb (percentUsed heapUsed) 90 then ret "unhealthy"
  else if Qgtb (percentUsed heapUsed) 70 then ret "warning"
  else ret "healthy".

(** The [try] block of [handler]. *)
Definition attempt (event requestId : value) : M value :=
     let* path := lift (get event "path") in
     let* httpMethod := lift (get event "httpMethod") in
     log "INFO" "Health check requested"
       [("requestId", requestId); ("path", path); ("method", httpMethod)] ;;
     let* memory := checkMemory in
     let* ENVIRONMENT := process_env "ENVIRONMENT" in
     let* AWS_REGION := process_env "AWS_REGION" in
     let healthChecks :=
       VObj [("lambda", VStr "healthy");
             ("memory", VStr memory);
             ("environment", or_else ENVIRONMENT (VStr "dev"));
             ("region", or_else AWS_REGION (VStr "unknown"))] in
     let isHealthy :=
       forallb (fun status => strict_neq_str status "unhealthy")
               (Object_values healthChecks) in
     let status := if isHealthy then "healthy" else "degraded" in
     let* timestamp := new_Date_toISOString in
     let* API_VERSION := process_env "API_VERSION" in
     let responseData :=
       VObj [("status", VStr status);
             ("timestamp", VStr timestamp);
             ("checks", healthChecks);
             ("version", or_else API_VERSION (VStr "1.0.0"))] in
     log "INFO" "Health check completed"
       [("requestId", requestId); ("status", VStr status)] ;;
     ret (VObj
       [("statusCode", VNum (if isHealthy then 200 else 503));
        ("headers", VObj
           [("Content-Type", VStr "application/json");
            ("Access-Control-Allow-Origin", VStr "*");
            ("Cache-Control", VStr "no-cache, no-store, must-revalidate");
            ("X-Request-Id", requestId)]);
        ("body", JSON_stringify responseData)]).

(** The [catch (error)] block of [handler]. *)
Definition recover (requestId : value) (error : JsError) : M value :=
     log "ERROR" "Health check failed"
       [("requestId", requestId);
        ("error", VStr (message error));
        ("stack", VStr (stack error))] ;;
     let* timestamp := new_Date_toISOString in
     ret (VObj
       [("statusCode", VNum 503);
        ("headers", VObj
           [("Content-Type", VStr "application/json");
            ("Access-Control-Allow-Origin", VStr "*");
            ("Cache-Control", VStr "no-cache, no-store, must-revalidate");
            ("X-Request-Id", requestId)]);
        ("body", JSON_stringify (VObj
           [("status", VStr "unhealthy");
            ("timestamp", VStr timestamp);
            ("error", VStr "Health check encountered an error");
            ("requestId", requestId)]))]).

(** [exports.handler]: the request id is taken before the [try]
    statement. *)
Definition handler (event : value) : M value :=
  let* requestContext := lift (get event "requestContext") in
  let requestId := or_else (get_opt requestContext "requestId") (VStr "unknown") in
  try_catch (attempt event requestId) (recover requestId).

End Health.

(** ** The vocabulary of the contract *)

Module Contract.
Import Js Proc.

(** The event is an object, as the handlers' [@param {Object} event]
    says. *)
Definition is_object (event : value) : bool :=
  match event with VObj _ => true | _ => false end.

(** An event in the proxy input format as far as the handlers read it: an
    object whose [requestContext], when there is one, is an object whose
    [requestId], when there is one, is a string. *)
Definition proxy_event (event : value) : bool :=
  match event with
  | VObj ps =>
      match lookup_prop "requestContext" ps with
      | VUndefined => true
      | VObj rc =>
          match lookup_prop "requestId" rc with
          | VUndefined | VStr _ => true
          | _ => false
          end
      | _ => false
      end
  | _ => false
  end.

(** [event.requestContext.requestId], [undefined] when either is absent. *)
Definition requestId_of (event : value) : value :=
  get_opt (get_opt event "requestContext") "requestId".

(** The event with its [httpMethod] replaced by [m]. *)
Definition with_method (m : value) (event : value) : value :=
  match event with
  | VObj ps => VObj (define_prop "httpMethod" m ps)
  | _ => event
  end.

(** The settled promise of one invocation. *)
Definition outcome (handler : value -> M value) (event : value) (w : Runtime)
  : Promise :=
  fst (invoke (handler event) w).

(** The three fields of a response. *)
Definition statusCode (r : value) : value := get_opt r "statusCode".
Definition header (r : value) (name : string) : value :=
  get_opt (get_opt r "headers") name.
Definition body (r : value) : value := get_opt r "body".

(** The body is the JSON text of an object with distinct keys whose
    property [k] is [x]. *)
Definition body_has (r : value) (k : string) (x : value) : Prop :=
  exists ps, body r = JSON_stringify (VObj ps)
             /\ NoDup (map fst ps) /\ lookup_prop k ps = x.

(** The same for property [k2] of the object that is property [k1]. *)
Definition body_has_in (r : value) (k1 k2 : string) (x : value) : Prop :=
  exists ps qs, body r = JSON_stringify (VObj ps)
                /\ NoDup (map fst ps) /\ lookup_prop k1 ps = VObj qs
                /\ NoDup (map fst qs) /\ lookup_prop k2 qs = x.

(** The response shape the proxy integration expects: exactly the fields
    [statusCode], [headers] and [body]; an integral status code among
    [codes]; string-valued headers; and as body a string that is the JSON
    text of an object. *)
Definition proxy_response (codes : list Z) (r : value) : Prop :=
  exists (c : Z) (hs : list (string * value)) (b : string),
    r = VObj [("statusCode", VNum c); ("headers", VObj hs); ("body", VStr b)]
    /\ In c codes
    /\ Forall (fun kv => exists s, snd kv = VStr s) hs
    /\ exists payload, b = serialize (VObj payload).

(** The console and [new Date().toISOString()] never throw. *)
Definition logging_works (w : Runtime) : Prop :=
  forall k, console_log w k = None /\ exists t, toISOString w k = inr t.

(** [Date.now()] never throws. *)
Definition clock_works (w : Runtime) : Prop :=
  forall k, exists t, Date_now w k = inr t.

(** 128 MiB, the budget the memory bands refer to. *)
Definition budget : Z := 128 * 1024 * 1024.

(** [h] bytes are at most, or more than, [p] percent of the budget. *)
Definition at_most_percent (h p : Z) : Prop := 100 * h <= p * budget.
Definition above_percent (h p : Z) : Prop := p * budget < 100 * h.

(** The value of a configuration variable as the spec words it: the
    variable when it is set to a non-empty string, else the default. *)
Definition configured (w : Runtime) (name default : string) : string :=
  match env w !! name with
  | Some v => if String.eqb v "" then default else v
  | None => default
  end.

(** The request id a response carries: the event's when it is a non-empty
    string, else the literal [unknown]. *)
Definition expected_requestId (event : value) : string :=
  match requestId_of event with
  | VStr s => if String.eqb s "" then "unknown" else s
  | _ => "unknown"
  end.

(** The request id a handler works with: [requestId || 'unknown']. *)
Definition chosen_requestId (event : value) : value :=
  or_else (requestId_of event) (VStr "unknown").

(** No check reads "unhealthy". *)
Definition all_healthy (memory environment region : string) : bool :=
  forallb (fun status => strict_neq_str status "unhealthy")
    [VStr "healthy"; VStr memory; VStr environment; VStr region].

(** The memory status of a sample of [h] bytes. *)
Definition memory_status (h : Z) : string :=
  if Health.Qgtb (Health.percentUsed h) (inject_Z 90) then "unhealthy"
  else if Health.Qgtb (Health.percentUsed h) (inject_Z 70) then "warning"
  else "healthy".

(** The four response literals of the two handlers, as functions of what
    varies in them. *)
Definition hello_ok (rid : value) (t : string) (elapsed : Z)
    (version environment : string) : value :=
  VObj
    [("statusCode", VNum 200);
     ("headers", VObj
        [("Content-Type", VStr "application/json");
         ("Access-Control-Allow-Origin", VStr "*");
         ("Access-Control-Allow-Headers",
          VStr "Content-Type,X-Amz-Date,Authorization,X-Api-Key,X-Amz-Security-Token");
         ("Access-Control-Allow-Methods", VStr "GET,OPTIONS");
         ("X-Request-Id", rid);
         ("X-Processing-Time", VStr (Z_to_string elapsed +:+ "ms"))]);
     ("body", JSON_stringify (VObj
        [("message", VStr "Hello World!");
         ("timestamp", VStr t);
         ("requestId", rid);
         ("version", VStr version);
         ("environment", VStr environment)]))].

Definition hello_error (rid : value) : value :=
  VObj
    [("statusCode", VNum 500);
     ("headers", VObj
        [("Content-Type", VStr "application/json");
         ("Access-Control-Allow-Origin", VStr "*");
         ("X-Request-Id", rid)]);
     ("body", JSON_stringify (VObj
        [("error", VStr "Internal Server Error");
         ("message", VStr "An error occurred while processing your request");
         ("requestId", rid)]))].

Definition health_report (rid : value) (t memory environment region version : string)
  : value :=
  VObj
    [("statusCode",
      VNum (if all_healthy memory environment region then 200 else 503));
     ("headers", VObj
        [("Content-Type", VStr "application/json");
         ("Access-Control-Allow-Origin", VStr "*");
         ("Cache-Control", VStr "no-cache, no-store, must-revalidate");
         ("X-Request-Id", rid)]);
     ("body", JSON_stringify (VObj
        [("status",
          VStr (if all_healthy memory environment region
                then "healthy" else "degraded"));
         ("timestamp", VStr t);
         ("checks", VObj
            [("lambda", VStr "healthy");
             ("memory", VStr memory);
             ("environment", VStr environment);
             ("region", VStr region)]);
         ("version", VStr version)]))].

Definition health_error (rid : value) (t : string) : value :=
  VObj
    [("statusCode", VNum 503);
     ("headers", VObj
        [("Content-Type", VStr "application/json");
         ("Access-Control-Allow-Origin", VStr "*");
         ("Cache-Control", VStr "no-cache, no-store, must-revalidate");
         ("X-Request-Id", rid)]);
     ("body", JSON_stringify (VObj
        [("status", VStr "unhealthy");
         ("timestamp", VStr t);
         ("error", VStr "Health check encountered an error");
         ("requestId", rid)]))].

End Contract.

(** ** Sample runtimes and events *)

Module Samples.
Import Js Proc.

(** A process in which nothing throws: [heap] bytes in use, a clock that
    advances by one millisecond per reading. *)
Definition steady (e : gmap string string) (heap : Z) : Runtime :=
  mkRuntime e (inr heap)
    (fun k => inr (1700000000000 + Z.of_nat k))
    (fun _ => inr "2024-01-01T00:00:00.000Z")
    (fun _ => None).

(** The stub of the greeting test: [Date.now] throws. *)
Definition clock_fails (e : gmap string string) (heap : Z) : Runtime :=
  mkRuntime e (inr heap)
    (fun _ => inl (mkError "Simulated error" "Error: Simulated error"))
    (fun _ => inr "2024-01-01T00:00:00.000Z")
    (fun _ => None).

(** The stub of the health test: [process.memoryUsage] throws. *)
Definition memory_fails (e : gmap string string) : Runtime :=
  mkRuntime e (inl (mkError "Memory check failed" "Error: Memory check failed"))
    (fun k => inr (1700000000000 + Z.of_nat k))
    (fun _ => inr "2024-01-01T00:00:00.000Z")
    (fun _ => None).

(** A process whose [console.log] throws at every call. *)
Definition console_fails (e : gmap string string) (heap : Z) : Runtime :=
  mkRuntime e (inr heap)
    (fun k => inr (1700000000000 + Z.of_nat k))
    (fun _ => inr "2024-01-01T00:00:00.000Z")
    (fun _ => Some (mkError "write EPIPE" "Error: write EPIPE")).

Definition MiB : Z := 1024 * 1024.

(** [{httpMethod: "GET", path: path, requestContext: {requestId: id}}] *)
Definition get_props (path id : string) : list (string * value) :=
  [("httpMethod", VStr "GET"); ("path", VStr path);
   ("requestContext", VObj [("requestId", VStr id)])].

Definition get_event (path id : string) : value := VObj (get_props path id).

(** [{httpMethod: "GET", path: "/hello"}]: no [requestContext]. *)
Definition bare_event (path : string) : value :=
  VObj [("httpMethod", VStr "GET"); ("path", VStr path)].

End Samples.

(** ** What an invocation leaves behind *)

Module Trace.
Import Js Proc.

(** The record the logging helper hands to [console.log]:
    [JSON.stringify({timestamp, level, message, ...data})]. *)
Definition log_line (t level message : string) (data : list (string * value))
  : value :=
  JSON_stringify
    (VObj (spread [("timestamp", VStr t);
                   ("level", VStr level);
                   ("message", VStr message)] data)).

(** The value that the last occurrence of [k] in [data] carries. *)
Fixpoint last_prop (k : string) (data : list (string * value)) : option value :=
  match data with
  | [] => None
  | (k', v) :: data' =>
      match last_prop k data' with
      | Some v' => Some v'
      | None => if String.eqb k k' then Some v else None
      end
  end.

(** [null] and [undefined]. *)
Definition nullish (v : value) : bool :=
  match v with VUndefined | VNull => true | _ => false end.

(** No byte of the string is a control character (below 0x20). *)
Fixpoint no_control (s : string) : bool :=
  match s with
  | EmptyString => true
  | String c s' => (32 <=? N_of_ascii c)%N && no_control s'
  end.

(** Every byte of the string is a decimal digit. *)
Fixpoint all_digits (s : string) : bool :=
  match s with
  | EmptyString => true
  | String c s' =>
      (48 <=? N_of_ascii c)%N && (N_of_ascii c <=? 57)%N && all_digits s'
  end.

(** The rank of a memory status: healthy, warning, unhealthy. *)
Definition severity (status : string) : Z :=
  if String.eqb status "unhealthy" then 2
  else if String.eqb status "warning" then 1
  else 0.

End Trace.

(** ** Properties *)

Import Js Proc Contract.

Lemma Qgtb_percentUsed (h p : Z) :
  Health.Qgtb (Health.percentUsed h) (inject_Z p) = true <-> above_percent h p.
Proof.
  unfold Health.Qgtb, above_percent, budget.
  rewrite negb_true_iff, <- not_true_iff_false, Qle_bool_iff.
  assert (E : (/ inject_Z Health.maxMemory)%Q = (1 # 134217728)%Q) by reflexivity.
  unfold Health.percentUsed, Qdiv. rewrite E.
  unfold Qle. cbn. lia.
Qed.

(** *** The memory classification *)

Lemma checkMemory_sampled (w : Runtime) (s : State) (h : Z) :
  memoryUsage w = inr h ->
  Health.checkMemory w s = (inr (memory_status h), s).
Proof.
  intros Hm.
  unfold memory_status, Health.checkMemory, bind, process_memoryUsage_heapUsed.
  rewrite Hm.
  change (90%Q) with (inject_Z 90). change (70%Q) with (inject_Z 70).
  destruct (Health.Qgtb _ (inject_Z 90)); [reflexivity|].
  destruct (Health.Qgtb _ (inject_Z 70)); reflexivity.
Qed.

Lemma checkMemory_throws (w : Runtime) (s : State) (e : JsError) :
  memoryUsage w = inl e -> Health.checkMemory w s = (inl e, s).
Proof.
  intros Hm. unfold Health.checkMemory, bind, process_memoryUsage_heapUsed.
  now rewrite Hm.
Qed.

Lemma not_above_at_most (h p : Z) : ~ above_percent h p <-> at_most_percent h p.
Proof. unfold above_percent, at_most_percent. lia. Qed.

Lemma memory_status_bands (h : Z) :
  (at_most_percent h 70 -> memory_status h = "healthy") /\
  (above_percent h 70 -> at_most_percent h 90 -> memory_status h = "warning") /\
  (above_percent h 90 -> memory_status h = "unhealthy").
Proof.
  unfold memory_status.
  pose proof (Qgtb_percentUsed h 90) as H90.
  pose proof (Qgtb_percentUsed h 70) as H70.
  repeat split.
  - intros Hle. apply not_above_at_most in Hle.
    destruct (Health.Qgtb _ (inject_Z 90)) eqn:E90.
    + exfalso. apply Hle. unfold above_percent in *.
      pose proof (proj1 H90 eq_refl). unfold budget in *. lia.
    + destruct (Health.Qgtb _ (inject_Z 70)); [|reflexivity].
      exfalso. apply Hle, H70. reflexivity.
  - intros Hgt Hle. apply not_above_at_most in Hle.
    destruct (Health.Qgtb _ (inject_Z 90)).
    + exfalso. apply Hle, H90. reflexivity.
    + apply H70 in Hgt. rewrite Hgt. reflexivity.
  - intros Hgt. apply H90 in Hgt. rewrite Hgt. reflexivity.
Qed.

(** C2. The memory classification maps every heap sample [h] against the
    128 MiB budget into exactly three bands: at most 70% of the budget is
    "healthy", more than 70% and at most 90% is "warning", more than 90% is
    "unhealthy"; the three cases cover every [h]. *)
Theorem checkMemory_three_bands (w : Runtime) (s : State) (h : Z) :
  memoryUsage w = inr h ->
  (at_most_percent h 70 -> Health.checkMemory w s = (inr "healthy", s)) /\
  (above_percent h 70 -> at_most_percent h 90 ->
   Health.checkMemory w s = (inr "warning", s)) /\
  (above_percent h 90 -> Health.checkMemory w s = (inr "unhealthy", s)) /\
  (at_most_percent h 70 \/ (above_percent h 70 /\ at_most_percent h 90)
   \/ above_percent h 90).
Proof.
  intros Hm. rewrite (checkMemory_sampled w s h Hm).
  destruct (memory_status_bands h) as (H1 & H2 & H3).
  repeat split.
  - intros Hle. now rewrite (H1 Hle).
  - intros Hgt Hle. now rewrite (H2 Hgt Hle).
  - intros Hgt. now rewrite (H3 Hgt).
  - unfold at_most_percent, above_percent. lia.
Qed.

Lemma checkMemory_three_bands_witness :
  memoryUsage (Samples.steady ∅ (100 * Samples.MiB)) = inr (100 * Samples.MiB)
  /\ above_percent (100 * Samples.MiB) 70
  /\ at_most_percent (100 * Samples.MiB) 90
  /\ Health.checkMemory (Samples.steady ∅ (100 * Samples.MiB)) initial
     = (inr "warning", initial).
Proof.
  assert (Ha : above_percent (100 * Samples.MiB) 70) by (vm_compute; reflexivity).
  assert (Hb : at_most_percent (100 * Samples.MiB) 90)
    by (vm_compute; intros E; discriminate E).
  split; [reflexivity | split; [exact Ha | split; [exact Hb |]]].
  exact (proj1 (proj2 (checkMemory_three_bands
           (Samples.steady ∅ (100 * Samples.MiB)) initial (100 * Samples.MiB)
           eq_refl)) Ha Hb).
Defined.


(** *** The two blocks of each handler, run symbolically *)

Lemma JSON_stringify_object (ps : list (string * value)) :
  JSON_stringify (VObj ps) = VStr (serialize (VObj ps)).
Proof. reflexivity. Qed.

Local Opaque JSON_stringify spread Z_to_string Health.checkMemory.

Ltac unfold_m :=
  unfold Hello.attempt, Hello.recover, Health.attempt, Health.recover,
         Hello.log, Health.log, log, bind, lift, ret, get,
         new_Date_toISOString, console_log_call, Date_now_call, process_env.

Lemma or_else_env (w : Runtime) (k d : string) :
  or_else (match env w !! k with Some v => VStr v | None => VUndefined end) (VStr d)
  = VStr (configured w k d).
Proof.
  unfold configured, or_else. destruct (env w !! k) as [v|]; cbn; [|reflexivity].
  destruct (String.eqb v ""); reflexivity.
Qed.

(** A handler on an object: the [try] block, then the [catch] block when
    the former throws; the promise rejects only when the latter throws. *)
Lemma hello_handler_blocks (ps : list (string * value)) (w : Runtime) :
  outcome Hello.handler (VObj ps) w =
    match Hello.attempt (VObj ps) (chosen_requestId (VObj ps)) w initial with
    | (inr r, _) => Resolved r
    | (inl e, s1) =>
        match Hello.recover (chosen_requestId (VObj ps)) e w s1 with
        | (inr r, _) => Resolved r
        | (inl e', _) => Rejected e'
        end
    end.
Proof.
  unfold outcome, invoke, Hello.handler, try_catch, bind, lift, get,
         chosen_requestId, requestId_of, get_opt at 2. cbv beta iota.
  destruct (Hello.attempt _ _ w initial) as [[e|r] s1]; [|reflexivity].
  destruct (Hello.recover _ e w s1) as [[e'|r] s2]; reflexivity.
Qed.

Lemma health_handler_blocks (ps : list (string * value)) (w : Runtime) :
  outcome Health.handler (VObj ps) w =
    match Health.attempt (VObj ps) (chosen_requestId (VObj ps)) w initial with
    | (inr r, _) => Resolved r
    | (inl e, s1) =>
        match Health.recover (chosen_requestId (VObj ps)) e w s1 with
        | (inr r, _) => Resolved r
        | (inl e', _) => Rejected e'
        end
    end.
Proof.
  unfold outcome, invoke, Health.handler, try_catch, bind, lift, get,
         chosen_requestId, requestId_of, get_opt at 2. cbv beta iota.
  destruct (Health.attempt _ _ w initial) as [[e|r] s1]; [|reflexivity].
  destruct (Health.recover _ e w s1) as [[e'|r] s2]; reflexivity.
Qed.

(** An event that is [null] or [undefined] is read before the [try]
    statement: the promise rejects. *)
Lemma handler_null_event (w : Runtime) :
  outcome Hello.handler VNull w
    = Rejected (TypeError "Cannot read properties of null (reading 'requestContext')")
  /\ outcome Health.handler VNull w
    = Rejected (TypeError "Cannot read properties of null (reading 'requestContext')").
Proof. split; reflexivity. Qed.

(** The [catch] blocks, when their own calls return. *)
Lemma hello_recover_ok (rid : value) (e : JsError) (w : Runtime) (s : State) (t : string) :
  toISOString w (dates s) = inr t ->
  console_log w (log_calls s) = None ->
  exists s', Hello.recover rid e w s = (inr (hello_error rid), s').
Proof.
  intros Ht Hc. unfold_m. cbn. rewrite Ht. cbn. rewrite Hc. cbn.
  eexists. reflexivity.
Qed.

Lemma health_recover_ok (rid : value) (e : JsError) (w : Runtime) (s : State)
    (t t' : string) :
  toISOString w (dates s) = inr t ->
  console_log w (log_calls s) = None ->
  toISOString w (S (dates s)) = inr t' ->
  exists s', Health.recover rid e w s = (inr (health_error rid t'), s').
Proof.
  intros Ht Hc Ht'. unfold_m. cbn. rewrite Ht. cbn. rewrite Hc. cbn.
  rewrite Ht'. cbn. eexists. reflexivity.
Qed.

(** The [try] block of the greeting handler when the logger works: it
    returns the 200 response, or throws what [Date.now] throws. *)
Lemma hello_attempt_logging (ps : list (string * value)) (rid : value) (w : Runtime) :
  logging_works w ->
  exists s,
    Hello.attempt (VObj ps) rid w initial =
      match Date_now w 0%nat, Date_now w 1%nat, toISOString w 1%nat with
      | inr a, inr b, inr t =>
          (inr (hello_ok rid t (b - a) (configured w "API_VERSION" "1.0.0")
                         (configured w "ENVIRONMENT" "dev")), s)
      | inl e, _, _ => (inl e, s)
      | inr _, inl e, _ => (inl e, s)
      | inr _, inr _, inl e => (inl e, s)
      end.
Proof.
  intros Hl.
  destruct (Hl 0%nat) as [Hc0 [t0 Ht0]].
  destruct (Hl 1%nat) as [Hc1 [t1 Ht1]].
  destruct (Hl 2%nat) as [_ [t2 Ht2]].
  unfold_m. cbn. rewrite Ht0. cbn. rewrite Hc0. cbn.
  destruct (Date_now w 0%nat) as [e|a]; cbn; [eexists; reflexivity|].
  rewrite Ht1. cbn.
  destruct (Date_now w 1%nat) as [e|b]; cbn; [eexists; reflexivity|].
  rewrite Ht2. cbn. rewrite Hc1. cbn. rewrite !or_else_env.
  eexists. reflexivity.
Qed.

(** The [try] block of the health handler when the logger works: it
    returns the report, or throws what [process.memoryUsage] throws, after
    one timestamp and one console line. *)
Lemma health_attempt_logging (ps : list (string * value)) (rid : value) (w : Runtime) :
  logging_works w ->
  exists s,
    Health.attempt (VObj ps) rid w initial =
      match memoryUsage w, toISOString w 1%nat with
      | inr h, inr t =>
          (inr (health_report rid t (memory_status h)
                  (configured w "ENVIRONMENT" "dev")
                  (configured w "AWS_REGION" "unknown")
                  (configured w "API_VERSION" "1.0.0")), s)
      | inl e, _ => (inl e, s)
      | inr _, inl e => (inl e, s)
      end
    /\ (forall e, memoryUsage w = inl e -> dates s = 1%nat /\ log_calls s = 1%nat).
Proof.
  intros Hl.
  destruct (Hl 0%nat) as [Hc0 [t0 Ht0]].
  destruct (Hl 1%nat) as [Hc1 [t1 Ht1]].
  destruct (Hl 2%nat) as [_ [t2 Ht2]].
  unfold_m. cbn. rewrite Ht0. cbn. rewrite Hc0. cbn.
  destruct (memoryUsage w) as [e|h] eqn:Hm.
  - rewrite (checkMemory_throws w _ e Hm). cbn. eexists. split; [reflexivity|].
    intros _ _. split; reflexivity.
  - rewrite (checkMemory_sampled w _ h Hm). cbn.
    rewrite Ht1. cbn. rewrite Ht2. cbn. rewrite Hc1. cbn. rewrite !or_else_env.
    eexists. split; [reflexivity|]. intros e' He'. discriminate He'.
Qed.

(** *** What a block can return, in any runtime *)

Ltac unfold_m_in H :=
  unfold Hello.attempt, Hello.recover, Health.attempt, Health.recover,
         Hello.log, Health.log, log, bind, lift, ret, get,
         new_Date_toISOString, console_log_call, Date_now_call, process_env in H.

Ltac crunch H :=
  repeat (cbn in H;
          match type of H with
          | (inl _, _) = (inr _, _) => discriminate H
          | match ?X with _ => _ end = _ =>
              lazymatch X with
              | Health.checkMemory _ _ => fail
              | _ => destruct X eqn:?
              end
          end).

Lemma hello_attempt_returns (event rid : value) (w : Runtime) (s s' : State) (r : value) :
  Hello.attempt event rid w s = (inr r, s') ->
  exists t elapsed,
    r = hello_ok rid t elapsed (configured w "API_VERSION" "1.0.0")
                 (configured w "ENVIRONMENT" "dev").
Proof.
  intros H. unfold_m_in H. crunch H.
  rewrite !or_else_env in H. injection H as <- _. eauto.
Qed.

Lemma hello_recover_returns (rid : value) (e : JsError) (w : Runtime) (s s' : State)
    (r : value) :
  Hello.recover rid e w s = (inr r, s') -> r = hello_error rid.
Proof.
  intros H. unfold_m_in H. crunch H. injection H as <- _. reflexivity.
Qed.

Lemma health_attempt_returns (event rid : value) (w : Runtime) (s s' : State) (r : value) :
  Health.attempt event rid w s = (inr r, s') ->
  exists t h,
    memoryUsage w = inr h /\
    r = health_report rid t (memory_status h)
          (configured w "ENVIRONMENT" "dev")
          (configured w "AWS_REGION" "unknown")
          (configured w "API_VERSION" "1.0.0").
Proof.
  intros H. unfold_m_in H.
  destruct (memoryUsage w) as [e|h] eqn:Hm.
  - crunch H; rewrite (checkMemory_throws w _ e Hm) in H; discriminate H.
  - crunch H; rewrite (checkMemory_sampled w _ h Hm) in H; crunch H;
      rewrite !or_else_env in H; injection H as <- _; eauto.
Qed.

Lemma health_recover_returns (rid : value) (e : JsError) (w : Runtime) (s s' : State)
    (r : value) :
  Health.recover rid e w s = (inr r, s') -> exists t, r = health_error rid t.
Proof.
  intros H. unfold_m_in H. crunch H. injection H as <- _. eauto.
Qed.

(** *** The request id a handler works with *)

Lemma get_inr (event : value) (k : string) (v : value) :
  get event k = inr v -> v = get_opt event k.
Proof. destruct event; cbn; congruence. Qed.

Lemma chosen_requestId_proxy (event : value) :
  proxy_event event = true ->
  chosen_requestId event = VStr (expected_requestId event).
Proof.
  unfold proxy_event, chosen_requestId, expected_requestId, requestId_of, or_else.
  destruct event as [| | | | |?|ps]; try discriminate. cbn.
  destruct (lookup_prop "requestContext" ps) as [| | | | |?|rc]; try discriminate;
    cbn; try reflexivity.
  destruct (lookup_prop "requestId" rc) as [| | | |id|?|?]; try discriminate;
    cbn; try reflexivity.
  destruct (String.eqb id ""); reflexivity.
Qed.



Lemma lookup_define_prop_ne (k k' : string) (v : value) (ps : list (string * value)) :
  k <> k' -> lookup_prop k (define_prop k' v ps) = lookup_prop k ps.
Proof.
  intros Hne. induction ps as [|[k0 v0] ps IH]; cbn.
  - destruct (String.eqb_spec k k'); [contradiction | reflexivity].
  - destruct (String.eqb_spec k' k0) as [->|Hk]; cbn.
    + destruct (String.eqb_spec k k0); [contradiction | reflexivity].
    + destruct (String.eqb_spec k k0); [reflexivity | exact IH].
Qed.

Lemma chosen_requestId_with_method (m : value) (ps : list (string * value)) :
  chosen_requestId (with_method m (VObj ps)) = chosen_requestId (VObj ps).
Proof.
  unfold chosen_requestId, requestId_of, with_method, get_opt at 2 4.
  rewrite lookup_define_prop_ne by discriminate. reflexivity.
Qed.

(** *** The outcome of a handler *)

(** Whatever the runtime does, a response that a handler returns is one
    of its two response literals. *)
Lemma hello_handler_returns (event : value) (w : Runtime) (r : value) :
  outcome Hello.handler event w = Resolved r ->
  (exists t elapsed,
     r = hello_ok (chosen_requestId event) t elapsed
           (configured w "API_VERSION" "1.0.0") (configured w "ENVIRONMENT" "dev"))
  \/ r = hello_error (chosen_requestId event).
Proof.
  unfold outcome, invoke, Hello.handler, try_catch, bind, lift.
  destruct (get event "requestContext") as [e|rc] eqn:Hg; [discriminate|].
  apply get_inr in Hg. subst rc. fold (requestId_of event).
  fold (chosen_requestId event).
  destruct (Hello.attempt _ _ w initial) as [[e|r0] s1] eqn:Ha.
  - destruct (Hello.recover _ e w s1) as [[e'|r1] s2] eqn:Hr; [discriminate|].
    intros [= <-]. right. eapply hello_recover_returns, Hr.
  - intros [= <-]. left. eapply hello_attempt_returns, Ha.
Qed.

Lemma health_handler_returns (event : value) (w : Runtime) (r : value) :
  outcome Health.handler event w = Resolved r ->
  (exists t h,
     memoryUsage w = inr h /\
     r = health_report (chosen_requestId event) t (memory_status h)
           (configured w "ENVIRONMENT" "dev") (configured w "AWS_REGION" "unknown")
           (configured w "API_VERSION" "1.0.0"))
  \/ exists t, r = health_error (chosen_requestId event) t.
Proof.
  unfold outcome, invoke, Health.handler, try_catch, bind, lift.
  destruct (get event "requestContext") as [e|rc] eqn:Hg; [discriminate|].
  apply get_inr in Hg. subst rc. fold (requestId_of event).
  fold (chosen_requestId event).
  destruct (Health.attempt _ _ w initial) as [[e|r0] s1] eqn:Ha.
  - destruct (Health.recover _ e w s1) as [[e'|r1] s2] eqn:Hr; [discriminate|].
    intros [= <-]. right. eapply health_recover_returns, Hr.
  - intros [= <-]. left. eapply health_attempt_returns, Ha.
Qed.

(** When the logger works, a handler on an object resolves, and the path
    it takes is decided by the clock, respectively the memory sample. *)
Lemma hello_outcome_logging (ps : list (string * value)) (w : Runtime) (t : string) :
  logging_works w ->
  toISOString w 1%nat = inr t ->
  outcome Hello.handler (VObj ps) w =
    match Date_now w 0%nat, Date_now w 1%nat with
    | inr a, inr b =>
        Resolved (hello_ok (chosen_requestId (VObj ps)) t (b - a)
                    (configured w "API_VERSION" "1.0.0")
                    (configured w "ENVIRONMENT" "dev"))
    | _, _ => Resolved (hello_error (chosen_requestId (VObj ps)))
    end.
Proof.
  intros Hl Ht1. rewrite hello_handler_blocks.
  destruct (hello_attempt_logging ps (chosen_requestId (VObj ps)) w Hl) as [s Hs].
  rewrite Hs. clear Hs. rewrite Ht1.
  assert (Hrec : forall e, exists s',
             Hello.recover (chosen_requestId (VObj ps)) e w s
             = (inr (hello_error (chosen_requestId (VObj ps))), s')).
  { intros e. destruct (Hl (dates s)) as [_ [t' Ht']].
    destruct (Hl (log_calls s)) as [Hc _].
    eapply hello_recover_ok; eassumption. }
  destruct (Date_now w 0%nat) as [e|a].
  - destruct (Hrec e) as [s' ->]. reflexivity.
  - destruct (Date_now w 1%nat) as [e|b]; [|reflexivity].
    destruct (Hrec e) as [s' ->]. reflexivity.
Qed.

Lemma health_outcome_logging (ps : list (string * value)) (w : Runtime) (t1 t2 : string) :
  logging_works w ->
  toISOString w 1%nat = inr t1 ->
  toISOString w 2%nat = inr t2 ->
  outcome Health.handler (VObj ps) w =
    match memoryUsage w with
    | inr h =>
        Resolved (health_report (chosen_requestId (VObj ps)) t1 (memory_status h)
                    (configured w "ENVIRONMENT" "dev")
                    (configured w "AWS_REGION" "unknown")
                    (configured w "API_VERSION" "1.0.0"))
    | inl _ => Resolved (health_error (chosen_requestId (VObj ps)) t2)
    end.
Proof.
  intros Hl Ht1 Ht2. rewrite health_handler_blocks.
  destruct (health_attempt_logging ps (chosen_requestId (VObj ps)) w Hl)
    as [s [Hs Hcount]].
  rewrite Hs. clear Hs. rewrite Ht1.
  destruct (memoryUsage w) as [e|h]; [|reflexivity].
  destruct (Hcount e eq_refl) as [Hd Hn].
  destruct (Hl 1%nat) as [Hc _].
  destruct (health_recover_ok (chosen_requestId (VObj ps)) e w s t1 t2)
    as [s' ->]; rewrite ?Hd, ?Hn; try assumption.
  reflexivity.
Qed.

(** Under a working logger the timestamps exist. *)
Lemma logging_timestamps (w : Runtime) :
  logging_works w ->
  exists t1 t2, toISOString w 1%nat = inr t1 /\ toISOString w 2%nat = inr t2.
Proof.
  intros Hl. destruct (Hl 1%nat) as [_ [t1 H1]]. destruct (Hl 2%nat) as [_ [t2 H2]].
  eauto.
Qed.

(** *** Reading the four response literals *)

Ltac distinct_keys := apply (bool_decide_unpack _); vm_compute; exact I.

Ltac read_body :=
  eexists; split; [reflexivity | split; [distinct_keys | reflexivity]].

Lemma hello_ok_reads (rid : value) (t : string) (elapsed : Z) (v e : string) :
  let r := hello_ok rid t elapsed v e in
  statusCode r = VNum 200
  /\ header r "X-Request-Id" = rid
  /\ body_has r "message" (VStr "Hello World!")
  /\ body_has r "requestId" rid
  /\ body_has r "version" (VStr v)
  /\ body_has r "environment" (VStr e).
Proof. cbv zeta. repeat split; try reflexivity; read_body. Qed.

Lemma hello_error_reads (rid : value) :
  let r := hello_error rid in
  statusCode r = VNum 500
  /\ header r "X-Request-Id" = rid
  /\ body_has r "error" (VStr "Internal Server Error")
  /\ body_has r "requestId" rid.
Proof. cbv zeta. repeat split; try reflexivity; read_body. Qed.

Lemma health_error_reads (rid : value) (t : string) :
  let r := health_error rid t in
  statusCode r = VNum 503
  /\ header r "X-Request-Id" = rid
  /\ body_has r "status" (VStr "unhealthy")
  /\ body_has r "requestId" rid.
Proof. cbv zeta. repeat split; try reflexivity; read_body. Qed.

Lemma health_report_reads (rid : value) (t m e g v : string) :
  let r := health_report rid t m e g v in
  statusCode r = VNum (if all_healthy m e g then 200 else 503)
  /\ header r "X-Request-Id" = rid
  /\ body_has r "status" (VStr (if all_healthy m e g then "healthy" else "degraded"))
  /\ body_has r "requestId" VUndefined
  /\ body_has_in r "checks" "memory" (VStr m)
  /\ body_has_in r "checks" "environment" (VStr e)
  /\ body_has_in r "checks" "region" (VStr g).
Proof.
  cbv zeta. repeat split; try reflexivity; try read_body;
    (do 2 eexists; split; [reflexivity | split; [distinct_keys |
       split; [reflexivity | split; [distinct_keys | reflexivity]]]]).
Qed.

Lemma body_has_eq (r : value) (k : string) (x y : value) :
  body_has r k x -> x = y -> body_has r k y.
Proof. intros H <-. exact H. Qed.

Lemma all_healthy_spec (m e g : string) :
  all_healthy m e g = true <-> m <> "unhealthy" /\ e <> "unhealthy" /\ g <> "unhealthy".
Proof.
  unfold all_healthy. cbn. rewrite !andb_true_iff, !negb_true_iff, !String.eqb_neq.
  tauto.
Qed.

Ltac unfold_shape :=
  unfold hello_ok, hello_error, health_report, health_error;
  rewrite JSON_stringify_object.

(** The shape of the four literals when the request id is a string. *)
Lemma hello_ok_shape (id t : string) (elapsed : Z) (v e : string) :
  proxy_response [200; 500] (hello_ok (VStr id) t elapsed v e).
Proof.
  unfold_shape. do 3 eexists. split; [reflexivity|]. split; [cbn; tauto|].
  split; [repeat constructor; cbn; eauto | eexists; reflexivity].
Qed.

Lemma hello_error_shape (id : string) :
  proxy_response [200; 500] (hello_error (VStr id)).
Proof.
  unfold_shape. do 3 eexists. split; [reflexivity|]. split; [cbn; tauto|].
  split; [repeat constructor; cbn; eauto | eexists; reflexivity].
Qed.

Lemma health_report_shape (id t m e g v : string) :
  proxy_response [200; 503] (health_report (VStr id) t m e g v).
Proof.
  unfold_shape. do 3 eexists. split; [reflexivity|].
  split; [destruct (all_healthy m e g); cbn; tauto|].
  split; [repeat constructor; cbn; eauto | eexists; reflexivity].
Qed.

Lemma health_error_shape (id t : string) :
  proxy_response [200; 503] (health_error (VStr id) t).
Proof.
  unfold_shape. do 3 eexists. split; [reflexivity|]. split; [cbn; tauto|].
  split; [repeat constructor; cbn; eauto | eexists; reflexivity].
Qed.

(** *** Hypotheses on the sample runtimes *)

(** Discharges [logging_works] and [clock_works] of a sample runtime. *)
Ltac sample_runtime :=
  intros ?; first [ split; [reflexivity | eexists; reflexivity]
                  | eexists; reflexivity ].

(** *** The greeting *)

(** C3. For every event object, in a process whose logger and clock work,
    the greeting handler returns status code 200 and a JSON body whose
    [message] is "Hello World!"; the response does not depend on the HTTP
    method: replacing [httpMethod] by any value gives the same response. *)
Theorem greeting_is_constant (event : value) (w : Runtime) :
  is_object event = true -> logging_works w -> clock_works w ->
  exists r,
    outcome Hello.handler event w = Resolved r
    /\ statusCode r = VNum 200
    /\ body_has r "message" (VStr "Hello World!")
    /\ forall m, outcome Hello.handler (with_method m event) w = Resolved r.
Proof.
  intros Ho Hl Hc. destruct event as [| | | | |?|ps]; try discriminate Ho.
  destruct (logging_timestamps w Hl) as (t & _ & Ht1 & _).
  pose proof (hello_outcome_logging ps w t Hl Ht1) as Ht.
  destruct (Hc 0%nat) as [a Ha]. destruct (Hc 1%nat) as [b Hb].
  rewrite Ha, Hb in Ht.
  eexists. split; [exact Ht|].
  destruct (hello_ok_reads (chosen_requestId (VObj ps)) t (b - a)
              (configured w "API_VERSION" "1.0.0") (configured w "ENVIRONMENT" "dev"))
    as (Hs & _ & Hm & _).
  split; [exact Hs|]. split; [exact Hm|].
  intros m.
  pose proof (hello_outcome_logging (define_prop "httpMethod" m ps) w t Hl Ht1) as Hm'.
  rewrite Ha, Hb in Hm'.
  change (VObj (define_prop "httpMethod" m ps)) with (with_method m (VObj ps)) in Hm'.
  rewrite chosen_requestId_with_method in Hm'. exact Hm'.
Qed.

Lemma greeting_is_constant_witness :
  exists r,
    outcome Hello.handler (Samples.get_event "/hello" "abc-1")
            (Samples.steady ∅ (10 * Samples.MiB)) = Resolved r
    /\ statusCode r = VNum 200
    /\ body_has r "message" (VStr "Hello World!")
    /\ forall m, outcome Hello.handler
                   (with_method m (Samples.get_event "/hello" "abc-1"))
                   (Samples.steady ∅ (10 * Samples.MiB)) = Resolved r.
Proof.
  apply (greeting_is_constant (Samples.get_event "/hello" "abc-1")
           (Samples.steady ∅ (10 * Samples.MiB))).
  - reflexivity.
  - sample_runtime.
  - sample_runtime.
Defined.

(** *** Failures *)

(** C4, as stated, fails, in two ways.  When [console.log] throws, the
    [try] block throws at its first log line and the [catch] block throws
    at its own, so the promise of either handler rejects with the raw
    error.  And the event is read before the [try] statement: on the event
    [null] either handler rejects with a [TypeError]. *)
Lemma exceptions_can_escape :
  outcome Hello.handler (Samples.get_event "/hello" "abc-1")
          (Samples.console_fails ∅ (10 * Samples.MiB))
    = Rejected (mkError "write EPIPE" "Error: write EPIPE")
  /\ outcome Health.handler (Samples.get_event "/health" "abc-1")
          (Samples.console_fails ∅ (10 * Samples.MiB))
    = Rejected (mkError "write EPIPE" "Error: write EPIPE")
  /\ outcome Hello.handler VNull (Samples.steady ∅ (10 * Samples.MiB))
    = Rejected (TypeError "Cannot read properties of null (reading 'requestContext')")
  /\ outcome Health.handler VNull (Samples.steady ∅ (10 * Samples.MiB))
    = Rejected (TypeError "Cannot read properties of null (reading 'requestContext')").
Proof. repeat split; vm_compute; reflexivity. Qed.

(** C4, amended. For every event object, an exception thrown inside the
    [try] block of a handler is caught, and when the calls of the [catch]
    block itself return (its log line and, in the health handler, its
    timestamp), the handler resolves to the error response: status code
    500 with [error] "Internal Server Error" and the request id for the
    greeting, status code 503 with [status] "unhealthy" and the request id
    for the health check. *)
Theorem try_block_failure_is_converted
    (ps : list (string * value)) (w : Runtime) (e : JsError) (s1 : State)
    (t t' : string) :
  (Hello.attempt (VObj ps) (chosen_requestId (VObj ps)) w initial = (inl e, s1) ->
   toISOString w (dates s1) = inr t ->
   console_log w (log_calls s1) = None ->
   exists r,
     outcome Hello.handler (VObj ps) w = Resolved r
     /\ statusCode r = VNum 500
     /\ body_has r "error" (VStr "Internal Server Error")
     /\ body_has r "requestId" (chosen_requestId (VObj ps))
     /\ header r "X-Request-Id" = chosen_requestId (VObj ps))
  /\
  (Health.attempt (VObj ps) (chosen_requestId (VObj ps)) w initial = (inl e, s1) ->
   toISOString w (dates s1) = inr t ->
   console_log w (log_calls s1) = None ->
   toISOString w (S (dates s1)) = inr t' ->
   exists r,
     outcome Health.handler (VObj ps) w = Resolved r
     /\ statusCode r = VNum 503
     /\ body_has r "status" (VStr "unhealthy")
     /\ body_has r "requestId" (chosen_requestId (VObj ps))
     /\ header r "X-Request-Id" = chosen_requestId (VObj ps)).
Proof.
  split.
  - intros Ha Ht Hc. rewrite hello_handler_blocks, Ha.
    destruct (hello_recover_ok (chosen_requestId (VObj ps)) e w s1 t Ht Hc) as [s' ->].
    eexists. split; [reflexivity|].
    destruct (hello_error_reads (chosen_requestId (VObj ps))) as (H1 & H2 & H3 & H4).
    auto.
  - intros Ha Ht Hc Ht'. rewrite health_handler_blocks, Ha.
    destruct (health_recover_ok (chosen_requestId (VObj ps)) e w s1 t t' Ht Hc Ht')
      as [s' ->].
    eexists. split; [reflexivity|].
    destruct (health_error_reads (chosen_requestId (VObj ps)) t') as (H1 & H2 & H3 & H4).
    auto.
Qed.

Lemma try_block_failure_is_converted_witness :
  (exists r,
     outcome Hello.handler (Samples.get_event "/hello" "test-error")
             (Samples.clock_fails ∅ (10 * Samples.MiB)) = Resolved r
     /\ statusCode r = VNum 500
     /\ body_has r "error" (VStr "Internal Server Error")
     /\ body_has r "requestId" (VStr "test-error")
     /\ header r "X-Request-Id" = VStr "test-error")
  /\
  (exists r,
     outcome Health.handler (Samples.get_event "/health" "health-error-test")
             (Samples.memory_fails ∅) = Resolved r
     /\ statusCode r = VNum 503
     /\ body_has r "status" (VStr "unhealthy")
     /\ body_has r "requestId" (VStr "health-error-test")
     /\ header r "X-Request-Id" = VStr "health-error-test").
Proof.
  split.
  - apply (proj1 (try_block_failure_is_converted
             (Samples.get_props "/hello" "test-error")
             (Samples.clock_fails ∅ (10 * Samples.MiB))
             (mkError "Simulated error" "Error: Simulated error")
             (snd (Hello.attempt (Samples.get_event "/hello" "test-error")
                     (VStr "test-error")
                     (Samples.clock_fails ∅ (10 * Samples.MiB)) initial))
             "2024-01-01T00:00:00.000Z" "2024-01-01T00:00:00.000Z"));
      vm_compute; reflexivity.
  - apply (proj2 (try_block_failure_is_converted
             (Samples.get_props "/health" "health-error-test")
             (Samples.memory_fails ∅)
             (mkError "Memory check failed" "Error: Memory check failed")
             (snd (Health.attempt (Samples.get_event "/health" "health-error-test")
                     (VStr "health-error-test")
                     (Samples.memory_fails ∅) initial))
             "2024-01-01T00:00:00.000Z" "2024-01-01T00:00:00.000Z"));
      vm_compute; reflexivity.
Defined.

(** *** The request id *)

(** C5, as stated, fails: a [requestId] that is present and is the empty
    string is not echoed; the response carries "unknown". *)
Lemma empty_requestId_not_echoed :
  requestId_of (Samples.get_event "/hello" "") = VStr ""
  /\ exists r,
       outcome Hello.handler (Samples.get_event "/hello" "")
               (Samples.steady ∅ (10 * Samples.MiB)) = Resolved r
       /\ r = hello_ok (VStr "unknown") "2024-01-01T00:00:00.000Z" 1 "1.0.0" "dev"
       /\ header r "X-Request-Id" = VStr "unknown"
       /\ body_has r "requestId" (VStr "unknown")
       /\ header r "X-Request-Id" <> requestId_of (Samples.get_event "/hello" "").
Proof.
  split; [reflexivity|].
  eexists. split; [|split; [reflexivity|]].
  - vm_compute. reflexivity.
  - split; [reflexivity|]. split; [read_body|]. discriminate.
Qed.

(** C5, amended. For every event in the proxy format and every process
    whose logger works, on the success and on the error path alike: the
    [X-Request-Id] header of either handler, and the [requestId] of the body
    of the greeting handler and of the error body of the health handler,
    equal the event's [requestContext.requestId] when that is a non-empty
    string and "unknown" otherwise; the body of a health report has no
    [requestId]. *)
Theorem requestId_is_echoed (event : value) (w : Runtime) :
  proxy_event event = true -> logging_works w ->
  (exists r,
     outcome Hello.handler event w = Resolved r
     /\ header r "X-Request-Id" = VStr (expected_requestId event)
     /\ body_has r "requestId" (VStr (expected_requestId event)))
  /\
  (exists r,
     outcome Health.handler event w = Resolved r
     /\ header r "X-Request-Id" = VStr (expected_requestId event)
     /\ match memoryUsage w with
        | inl _ => body_has r "requestId" (VStr (expected_requestId event))
        | inr _ => body_has r "requestId" VUndefined
        end).
Proof.
  intros Hp Hl. pose proof (chosen_requestId_proxy event Hp) as Hid.
  destruct event as [| | | | |?|ps]; try discriminate Hp.
  destruct (logging_timestamps w Hl) as (t1 & t2 & Ht1 & Ht2).
  split.
  - rewrite (hello_outcome_logging ps w t1 Hl Ht1), Hid.
    destruct (Date_now w 0%nat) as [?|a]; [|destruct (Date_now w 1%nat) as [?|b]];
      eexists; (split; [reflexivity|]); split; try reflexivity; read_body.
  - rewrite (health_outcome_logging ps w t1 t2 Hl Ht1 Ht2), Hid.
    destruct (memoryUsage w) as [?|h];
      eexists; (split; [reflexivity|]); split; try reflexivity; read_body.
Qed.

Lemma requestId_is_echoed_witness :
  (exists r,
     outcome Hello.handler (Samples.get_event "/hello" "abc-1")
             (Samples.clock_fails ∅ (10 * Samples.MiB)) = Resolved r
     /\ header r "X-Request-Id" = VStr "abc-1"
     /\ body_has r "requestId" (VStr "abc-1"))
  /\
  (exists r,
     outcome Health.handler (Samples.get_event "/hello" "abc-1")
             (Samples.clock_fails ∅ (10 * Samples.MiB)) = Resolved r
     /\ header r "X-Request-Id" = VStr "abc-1"
     /\ body_has r "requestId" VUndefined).
Proof.
  apply (requestId_is_echoed (Samples.get_event "/hello" "abc-1")
           (Samples.clock_fails ∅ (10 * Samples.MiB))).
  - reflexivity.
  - sample_runtime.
Defined.

(** *** Configuration *)

(** C6, as stated, fails: with [API_VERSION] set to the empty string the
    greeting reports the default version, not the variable's value. *)
Lemma empty_variable_not_reflected :
  env (Samples.steady {["API_VERSION" := ""]} (10 * Samples.MiB)) !! "API_VERSION"
    = Some ""
  /\ exists r,
       outcome Hello.handler (Samples.get_event "/hello" "x")
               (Samples.steady {["API_VERSION" := ""]} (10 * Samples.MiB))
         = Resolved r
       /\ r = hello_ok (VStr "x") "2024-01-01T00:00:00.000Z" 1 "1.0.0" "dev"
       /\ body_has r "version" (VStr "1.0.0").
Proof.
  split; [vm_compute; reflexivity|].
  eexists. split; [|split; [reflexivity|]].
  - vm_compute. reflexivity.
  - read_body.
Qed.

(** C6, amended. In every greeting (event object, working logger and
    clock) [version] is the value of [API_VERSION] when the variable is set
    to a non-empty string, and "1.0.0" when it is unset or empty;
    [environment] is the value of [ENVIRONMENT] when that is set to a
    non-empty string, and "dev" when it is unset or empty. *)
Theorem greeting_reflects_configuration (event : value) (w : Runtime) :
  is_object event = true -> logging_works w -> clock_works w ->
  exists r,
    outcome Hello.handler event w = Resolved r
    /\ (forall v, env w !! "API_VERSION" = Some v -> v <> "" ->
        body_has r "version" (VStr v))
    /\ (env w !! "API_VERSION" = None \/ env w !! "API_VERSION" = Some "" ->
        body_has r "version" (VStr "1.0.0"))
    /\ (forall v, env w !! "ENVIRONMENT" = Some v -> v <> "" ->
        body_has r "environment" (VStr v))
    /\ (env w !! "ENVIRONMENT" = None \/ env w !! "ENVIRONMENT" = Some "" ->
        body_has r "environment" (VStr "dev")).
Proof.
  intros Ho Hl Hc. destruct event as [| | | | |?|ps]; try discriminate Ho.
  destruct (logging_timestamps w Hl) as (t & _ & Ht1 & _).
  pose proof (hello_outcome_logging ps w t Hl Ht1) as Ht.
  destruct (Hc 0%nat) as [a Ha]. destruct (Hc 1%nat) as [b Hb].
  rewrite Ha, Hb in Ht.
  eexists. split; [exact Ht|].
  destruct (hello_ok_reads (chosen_requestId (VObj ps)) t (b - a)
              (configured w "API_VERSION" "1.0.0") (configured w "ENVIRONMENT" "dev"))
    as (_ & _ & _ & _ & Hv & He).
  repeat split.
  - intros v Hset Hne. apply String.eqb_neq in Hne.
    eapply body_has_eq; [exact Hv|]. unfold configured. now rewrite Hset, Hne.
  - intros Hn.
    eapply body_has_eq; [exact Hv|]. unfold configured. now destruct Hn as [-> | ->].
  - intros v Hset Hne. apply String.eqb_neq in Hne.
    eapply body_has_eq; [exact He|]. unfold configured. now rewrite Hset, Hne.
  - intros Hn.
    eapply body_has_eq; [exact He|]. unfold configured. now destruct Hn as [-> | ->].
Qed.

Lemma greeting_reflects_configuration_witness :
  exists r,
    outcome Hello.handler (Samples.get_event "/hello" "x")
      (Samples.steady {["API_VERSION" := "2.0.0"; "ENVIRONMENT" := "prod"]}
                      (10 * Samples.MiB)) = Resolved r
    /\ body_has r "version" (VStr "2.0.0")
    /\ body_has r "environment" (VStr "prod").
Proof.
  destruct (greeting_reflects_configuration (Samples.get_event "/hello" "x")
              (Samples.steady {["API_VERSION" := "2.0.0"; "ENVIRONMENT" := "prod"]}
                              (10 * Samples.MiB)))
    as (r & Hr & Hv & _ & He & _).
  - reflexivity.
  - sample_runtime.
  - sample_runtime.
  - exists r. split; [exact Hr|]. split.
    + apply Hv; [vm_compute; reflexivity | discriminate].
    + apply He; [vm_compute; reflexivity | discriminate].
Defined.

(** *** The response shape *)

Lemma chosen_requestId_string (event : value) :
  (truthy (requestId_of event) = true -> exists id, requestId_of event = VStr id) ->
  exists id, chosen_requestId event = VStr id.
Proof.
  intros H. unfold chosen_requestId, or_else.
  destruct (truthy (requestId_of event)); [|eauto].
  destruct (H eq_refl) as [id ->]. eauto.
Qed.

(** C7, as stated, fails: the request id goes into the [X-Request-Id]
    header as it is, so for an event whose [requestContext.requestId] is
    the number 5 the greeting returns a header that is the number 5, not a
    string, and the response does not have the shape. *)
Lemma numeric_requestId_breaks_shape :
  exists r,
    outcome Hello.handler
      (VObj [("requestContext", VObj [("requestId", VNum 5)])])
      (Samples.steady ∅ (10 * Samples.MiB)) = Resolved r
    /\ r = hello_ok (VNum 5) "2024-01-01T00:00:00.000Z" 1 "1.0.0" "dev"
    /\ statusCode r = VNum 200
    /\ header r "X-Request-Id" = VNum 5
    /\ ~ proxy_response [200; 500] r.
Proof.
  eexists. split; [|split; [reflexivity|]].
  - vm_compute. reflexivity.
  - split; [reflexivity|]. split; [reflexivity|].
    intros (c & hs & b & Heq & _ & Hall & _).
    unfold hello_ok in Heq. injection Heq as _ <- _.
    do 4 (apply Forall_cons_iff in Hall as [_ Hall]).
    apply Forall_cons_iff in Hall as [[id Hid] _]. discriminate Hid.
Qed.

(** C7, amended. For every event whose [requestContext.requestId] is a
    string whenever it is truthy (a string, or absent, or any falsy value),
    every value that either handler returns, in any process and on either
    path, is an object with exactly the fields [statusCode], [headers] and
    [body]: an integral status code, 200 or 500 for the greeting and 200 or
    503 for the health check, string-valued headers, and the JSON text of
    an object as body.  And on an event object a value is returned
    whenever the logger works. *)
Theorem responses_have_proxy_shape (event : value) (w : Runtime) :
  (truthy (requestId_of event) = true -> exists id, requestId_of event = VStr id) ->
  (forall r, outcome Hello.handler event w = Resolved r ->
             proxy_response [200; 500] r)
  /\ (forall r, outcome Health.handler event w = Resolved r ->
                proxy_response [200; 503] r)
  /\ (is_object event = true -> logging_works w ->
      (exists r, outcome Hello.handler event w = Resolved r)
      /\ (exists r, outcome Health.handler event w = Resolved r)).
Proof.
  intros Hp. destruct (chosen_requestId_string event Hp) as [id Hid].
  split; [|split].
  - intros r Hr. apply hello_handler_returns in Hr. rewrite Hid in Hr.
    destruct Hr as [(t & el & ->) | ->].
    + apply hello_ok_shape.
    + apply hello_error_shape.
  - intros r Hr. apply health_handler_returns in Hr. rewrite Hid in Hr.
    destruct Hr as [(t & h & _ & ->) | (t & ->)].
    + apply health_report_shape.
    + apply health_error_shape.
  - intros Ho Hl. destruct event as [| | | | |?|ps]; try discriminate Ho.
    destruct (logging_timestamps w Hl) as (t1 & t2 & Ht1 & Ht2).
    rewrite (hello_outcome_logging ps w t1 Hl Ht1).
    rewrite (health_outcome_logging ps w t1 t2 Hl Ht1 Ht2).
    split.
    + destruct (Date_now w 0%nat); [|destruct (Date_now w 1%nat)]; eauto.
    + destruct (memoryUsage w); eauto.
Qed.

Lemma responses_have_proxy_shape_witness :
  proxy_response [200; 500]
    (hello_ok (VStr "abc-1") "2024-01-01T00:00:00.000Z" 1 "1.0.0" "dev")
  /\ proxy_response [200; 503]
       (health_error (VStr "abc-1") "2024-01-01T00:00:00.000Z").
Proof.
  destruct (responses_have_proxy_shape (Samples.get_event "/hello" "abc-1")
              (Samples.steady ∅ (10 * Samples.MiB)))
    as (Hhello & _ & _); [intros _; eexists; reflexivity|].
  destruct (responses_have_proxy_shape (Samples.get_event "/health" "abc-1")
              (Samples.memory_fails ∅))
    as (_ & Hhealth & _); [intros _; eexists; reflexivity|].
  split.
  - apply Hhello. vm_compute. reflexivity.
  - apply Hhealth. vm_compute. reflexivity.
Defined.

(** *** A missing request context *)

Lemma hello_recover_throws (rid : value) (e e' : JsError) (w : Runtime) (s s' : State) :
  Hello.recover rid e w s = (inl e', s') ->
  exists k, toISOString w k = inl e' \/ console_log w k = Some e'.
Proof.
  intros H. unfold_m_in H. cbn in H.
  destruct (toISOString w (dates s)) eqn:Ht; cbn in H.
  - injection H as <- _. eauto.
  - destruct (console_log w (log_calls s)) eqn:Hc; cbn in H; [|discriminate H].
    injection H as <- _. eauto.
Qed.

Lemma health_recover_throws (rid : value) (e e' : JsError) (w : Runtime) (s s' : State) :
  Health.recover rid e w s = (inl e', s') ->
  exists k, toISOString w k = inl e' \/ console_log w k = Some e'.
Proof.
  intros H. unfold_m_in H. cbn in H.
  destruct (toISOString w (dates s)) eqn:Ht; cbn in H.
  - injection H as <- _. eauto.
  - destruct (console_log w (log_calls s)) eqn:Hc; cbn in H.
    + injection H as <- _. eauto.
    + destruct (toISOString w (S (dates s))) eqn:Ht'; cbn in H; [|discriminate H].
      injection H as <- _. eauto.
Qed.

(** On an object, a handler rejects only with an error that the logger
    threw in the [catch] block. *)
Lemma rejection_comes_from_logger (ps : list (string * value)) (w : Runtime) (e : JsError) :
  outcome Hello.handler (VObj ps) w = Rejected e
  \/ outcome Health.handler (VObj ps) w = Rejected e ->
  exists k, toISOString w k = inl e \/ console_log w k = Some e.
Proof.
  rewrite hello_handler_blocks, health_handler_blocks. intros [H|H].
  - destruct (Hello.attempt _ _ w initial) as [[e0|r0] s1]; [|discriminate H].
    destruct (Hello.recover _ e0 w s1) as [[e1|r1] s2] eqn:Hr; [|discriminate H].
    injection H as <-. eapply hello_recover_throws, Hr.
  - destruct (Health.attempt _ _ w initial) as [[e0|r0] s1]; [|discriminate H].
    destruct (Health.recover _ e0 w s1) as [[e1|r1] s2] eqn:Hr; [|discriminate H].
    injection H as <-. eapply health_recover_throws, Hr.
Qed.

Lemma chosen_requestId_absent (ps : list (string * value)) :
  lookup_prop "requestContext" ps = VUndefined ->
  chosen_requestId (VObj ps) = VStr "unknown".
Proof.
  intros H. unfold chosen_requestId, requestId_of, get_opt at 2. now rewrite H.
Qed.

Lemma configured_reads_unhealthy (w : Runtime) (name default : string) :
  default <> "unhealthy" ->
  configured w name default = "unhealthy" <-> env w !! name = Some "unhealthy".
Proof.
  intros Hd. unfold configured. destruct (env w !! name) as [v|].
  - destruct (String.eqb_spec v "") as [->|Hne].
    + split; [intros E; contradiction | intros [= E]; discriminate E].
    + split; [intros -> | intros [= ->]]; reflexivity.
  - split; [intros E; contradiction | discriminate].
Qed.

(** The status of a health report, from the sample and the two variables
    that enter the checks map. *)
Lemma health_report_status (rid : value) (t v : string) (w : Runtime) (h : Z) :
  let r := health_report rid t (memory_status h)
             (configured w "ENVIRONMENT" "dev")
             (configured w "AWS_REGION" "unknown") v in
  (at_most_percent h 90
   /\ env w !! "ENVIRONMENT" <> Some "unhealthy"
   /\ env w !! "AWS_REGION" <> Some "unhealthy"
   /\ statusCode r = VNum 200
   /\ body_has r "status" (VStr "healthy"))
  \/ ((above_percent h 90
       \/ env w !! "ENVIRONMENT" = Some "unhealthy"
       \/ env w !! "AWS_REGION" = Some "unhealthy")
      /\ statusCode r = VNum 503
      /\ body_has r "status" (VStr "degraded")).
Proof.
  cbv zeta.
  destruct (health_report_reads rid t (memory_status h)
              (configured w "ENVIRONMENT" "dev") (configured w "AWS_REGION" "unknown") v)
    as (Hs & _ & Hb & _).
  pose proof (configured_reads_unhealthy w "ENVIRONMENT" "dev" ltac:(discriminate))
    as He.
  pose proof (configured_reads_unhealthy w "AWS_REGION" "unknown" ltac:(discriminate))
    as Hg.
  destruct (memory_status_bands h) as (Hlow & Hmid & Hhigh).
  destruct (all_healthy _ _ _) eqn:Hall.
  - left. apply all_healthy_spec in Hall. destruct Hall as (Hmem & Hen & Hre).
    repeat split; try assumption.
    + apply not_above_at_most. intros Hgt. apply Hmem, Hhigh, Hgt.
    + intros E. apply Hen, He, E.
    + intros E. apply Hre, Hg, E.
  - right. split; [|split; assumption].
    apply not_true_iff_false in Hall. rewrite all_healthy_spec in Hall.
    destruct (decide (configured w "ENVIRONMENT" "dev" = "unhealthy")) as [E|E];
      [right; left; apply He, E|].
    destruct (decide (configured w "AWS_REGION" "unknown" = "unhealthy")) as [G|G];
      [right; right; apply Hg, G|].
    left. unfold above_percent, at_most_percent in *.
    destruct (Z_lt_le_dec (90 * budget) (100 * h)) as [Hgt|Hle]; [exact Hgt|].
    exfalso. apply Hall. split; [|split; assumption].
    destruct (Z_lt_le_dec (70 * budget) (100 * h)) as [Hgt7|Hle7].
    + rewrite (Hmid Hgt7 Hle). discriminate.
    + rewrite (Hlow Hle7). discriminate.
Qed.

(** C8. For every event object without [requestContext]: a handler
    rejects only with an error that its logger threw, never because of the
    missing field; whenever the logger works both handlers return a
    well-formed response whose [X-Request-Id] is "unknown", and the bodies
    that carry a [requestId] (the greeting's, and the health error body)
    carry "unknown".  The missing field costs nothing else: the greeting is
    the 200 greeting whenever both clock readings return, and the health
    check is the ordinary report whenever the memory sample is there, 200
    and "healthy" or 503 and "degraded" as the sample and the configuration
    decide; it is the 503 error response only when the sample throws. *)
Theorem missing_requestContext_is_tolerated (ps : list (string * value)) (w : Runtime) :
  lookup_prop "requestContext" ps = VUndefined ->
  (forall e,
     outcome Hello.handler (VObj ps) w = Rejected e
     \/ outcome Health.handler (VObj ps) w = Rejected e ->
     exists k, toISOString w k = inl e \/ console_log w k = Some e)
  /\ (logging_works w ->
      (exists r,
         outcome Hello.handler (VObj ps) w = Resolved r
         /\ proxy_response [200; 500] r
         /\ header r "X-Request-Id" = VStr "unknown"
         /\ body_has r "requestId" (VStr "unknown")
         /\ (forall a b,
               Date_now w 0%nat = inr a -> Date_now w 1%nat = inr b ->
               statusCode r = VNum 200
               /\ body_has r "message" (VStr "Hello World!")))
      /\ (exists r,
            outcome Health.handler (VObj ps) w = Resolved r
            /\ proxy_response [200; 503] r
            /\ header r "X-Request-Id" = VStr "unknown"
            /\ match memoryUsage w with
               | inl _ =>
                   statusCode r = VNum 503
                   /\ body_has r "status" (VStr "unhealthy")
                   /\ body_has r "requestId" (VStr "unknown")
               | inr h =>
                   body_has r "requestId" VUndefined
                   /\ ((at_most_percent h 90
                        /\ env w !! "ENVIRONMENT" <> Some "unhealthy"
                        /\ env w !! "AWS_REGION" <> Some "unhealthy"
                        /\ statusCode r = VNum 200
                        /\ body_has r "status" (VStr "healthy"))
                       \/ ((above_percent h 90
                            \/ env w !! "ENVIRONMENT" = Some "unhealthy"
                            \/ env w !! "AWS_REGION" = Some "unhealthy")
                           /\ statusCode r = VNum 503
                           /\ body_has r "status" (VStr "degraded")))
               end)).
Proof.
  intros Habs. pose proof (chosen_requestId_absent ps Habs) as Hid.
  split; [intros e; apply rejection_comes_from_logger|].
  intros Hl. destruct (logging_timestamps w Hl) as (t1 & t2 & Ht1 & Ht2).
  rewrite (hello_outcome_logging ps w t1 Hl Ht1).
  rewrite (health_outcome_logging ps w t1 t2 Hl Ht1 Ht2). rewrite Hid.
  split.
  - destruct (Date_now w 0%nat) as [?|a]; [|destruct (Date_now w 1%nat) as [?|b]];
      eexists; (split; [reflexivity|]);
      (split; [first [apply hello_ok_shape | apply hello_error_shape]|]);
      (split; [reflexivity|]); (split; [read_body|]);
      intros a' b' Ha' Hb'; try discriminate Ha'; try discriminate Hb'.
    split; [reflexivity | read_body].
  - destruct (memoryUsage w) as [?|h];
      eexists; (split; [reflexivity|]);
      (split; [first [apply health_report_shape | apply health_error_shape]|]);
      (split; [reflexivity|]).
    + split; [reflexivity|]. split; read_body.
    + split; [read_body|]. apply health_report_status.
Qed.

Lemma missing_requestContext_is_tolerated_witness :
  (exists r,
     outcome Hello.handler (Samples.bare_event "/hello")
             (Samples.steady ∅ (10 * Samples.MiB)) = Resolved r
     /\ proxy_response [200; 500] r
     /\ header r "X-Request-Id" = VStr "unknown"
     /\ body_has r "requestId" (VStr "unknown")
     /\ statusCode r = VNum 200
     /\ body_has r "message" (VStr "Hello World!"))
  /\ (exists r,
        outcome Health.handler (Samples.bare_event "/hello")
                (Samples.steady ∅ (10 * Samples.MiB)) = Resolved r
        /\ proxy_response [200; 503] r
        /\ header r "X-Request-Id" = VStr "unknown"
        /\ body_has r "requestId" VUndefined
        /\ statusCode r = VNum 200
        /\ body_has r "status" (VStr "healthy")).
Proof.
  destruct (missing_requestContext_is_tolerated
              [("httpMethod", VStr "GET"); ("path", VStr "/hello")]
              (Samples.steady ∅ (10 * Samples.MiB)) eq_refl)
    as (_ & Hres).
  destruct Hres as ((r1 & Hr1 & Hp1 & Hh1 & Hb1 & Hok1)
                    & (r2 & Hr2 & Hp2 & Hh2 & Hb2 & Hst2)).
  - sample_runtime.
  - split.
    + exists r1. destruct (Hok1 1700000000000 1700000000001 eq_refl eq_refl)
        as (Hs & Hm). auto 10.
    + exists r2. destruct Hst2 as [(_ & _ & _ & Hs & Hb) | ([Hgt|[E|E]] & _)].
      * auto 10.
      * exfalso. vm_compute in Hgt. discriminate Hgt.
      * exfalso. vm_compute in E. discriminate E.
      * exfalso. vm_compute in E. discriminate E.
Defined.

(** *** The overall health status *)

(** C9. The overall status is derived from every entry of the checks
    map, not only from the memory check.  For any event object, any heap
    sample and a working logger, the report shows the four entries:
    [lambda] "healthy", [memory] the band of the sample, [environment] and
    [region] the two variables or their defaults; the status is "degraded"
    with status code 503 as soon as one entry reads "unhealthy", and
    "healthy" with 200 when none does.  So when [ENVIRONMENT] or
    [AWS_REGION] is the string "unhealthy" the answer is "degraded" and
    503, also when the heap is at most 70% of the budget and the memory
    entry itself reads "healthy". *)
Theorem unhealthy_configuration_degrades
    (ps : list (string * value)) (w : Runtime) (h : Z) :
  logging_works w ->
  memoryUsage w = inr h ->
  exists r memory environment region,
    outcome Health.handler (VObj ps) w = Resolved r
    /\ body_has_in r "checks" "lambda" (VStr "healthy")
    /\ body_has_in r "checks" "memory" (VStr memory)
    /\ body_has_in r "checks" "environment" (VStr environment)
    /\ body_has_in r "checks" "region" (VStr region)
    /\ (at_most_percent h 70 -> memory = "healthy")
    /\ (above_percent h 70 -> at_most_percent h 90 -> memory = "warning")
    /\ (above_percent h 90 -> memory = "unhealthy")
    /\ environment = configured w "ENVIRONMENT" "dev"
    /\ region = configured w "AWS_REGION" "unknown"
    /\ (memory = "unhealthy" \/ environment = "unhealthy" \/ region = "unhealthy" ->
        statusCode r = VNum 503 /\ body_has r "status" (VStr "degraded"))
    /\ (memory <> "unhealthy" -> environment <> "unhealthy" ->
        region <> "unhealthy" ->
        statusCode r = VNum 200 /\ body_has r "status" (VStr "healthy"))
    /\ (env w !! "ENVIRONMENT" = Some "unhealthy"
        \/ env w !! "AWS_REGION" = Some "unhealthy" ->
        statusCode r = VNum 503 /\ body_has r "status" (VStr "degraded")).
Proof.
  intros Hl Hm. destruct (logging_timestamps w Hl) as (t1 & t2 & Ht1 & Ht2).
  pose proof (health_outcome_logging ps w t1 t2 Hl Ht1 Ht2) as Ho. rewrite Hm in Ho.
  exists (health_report (chosen_requestId (VObj ps)) t1 (memory_status h)
            (configured w "ENVIRONMENT" "dev") (configured w "AWS_REGION" "unknown")
            (configured w "API_VERSION" "1.0.0")),
         (memory_status h), (configured w "ENVIRONMENT" "dev"),
         (configured w "AWS_REGION" "unknown").
  destruct (health_report_reads (chosen_requestId (VObj ps)) t1 (memory_status h)
              (configured w "ENVIRONMENT" "dev") (configured w "AWS_REGION" "unknown")
              (configured w "API_VERSION" "1.0.0"))
    as (Hs & _ & Hb & _ & Hmem & Henv & Hreg).
  destruct (memory_status_bands h) as (Hlow & Hmid & Hhigh).
  pose proof (all_healthy_spec (memory_status h) (configured w "ENVIRONMENT" "dev")
                (configured w "AWS_REGION" "unknown")) as Hall.
  assert (Hbad : memory_status h = "unhealthy"
                 \/ configured w "ENVIRONMENT" "dev" = "unhealthy"
                 \/ configured w "AWS_REGION" "unknown" = "unhealthy" ->
                 statusCode (health_report (chosen_requestId (VObj ps)) t1
                               (memory_status h) (configured w "ENVIRONMENT" "dev")
                               (configured w "AWS_REGION" "unknown")
                               (configured w "API_VERSION" "1.0.0")) = VNum 503
                 /\ body_has (health_report (chosen_requestId (VObj ps)) t1
                               (memory_status h) (configured w "ENVIRONMENT" "dev")
                               (configured w "AWS_REGION" "unknown")
                               (configured w "API_VERSION" "1.0.0"))
                              "status" (VStr "degraded")).
  { intros Hone. destruct (all_healthy _ _ _).
    - exfalso. destruct (proj1 Hall eq_refl) as (A & B & C). tauto.
    - split; assumption. }
  split; [exact Ho|].
  split; [do 2 eexists; split; [reflexivity | split; [distinct_keys |
            split; [reflexivity | split; [distinct_keys | reflexivity]]]]|].
  split; [exact Hmem|]. split; [exact Henv|]. split; [exact Hreg|].
  split; [exact Hlow|]. split; [exact Hmid|]. split; [exact Hhigh|].
  split; [reflexivity|]. split; [reflexivity|].
  split; [exact Hbad|]. split.
  - intros A B C. rewrite (proj2 Hall (conj A (conj B C))) in Hs, Hb.
    split; assumption.
  - intros Hvar. apply Hbad. right.
    destruct Hvar as [E|E]; [left | right];
      (apply configured_reads_unhealthy; [discriminate | exact E]).
Qed.

Lemma unhealthy_configuration_degrades_witness :
  at_most_percent (10 * Samples.MiB) 70
  /\ exists r,
       outcome Health.handler (Samples.get_event "/health" "abc-1")
         (Samples.steady {["ENVIRONMENT" := "unhealthy"]} (10 * Samples.MiB))
         = Resolved r
       /\ statusCode r = VNum 503
       /\ body_has r "status" (VStr "degraded")
       /\ body_has_in r "checks" "memory" (VStr "healthy").
Proof.
  assert (Hle : at_most_percent (10 * Samples.MiB) 70)
    by (vm_compute; intros E; discriminate E).
  split; [exact Hle|].
  destruct (unhealthy_configuration_degrades
              (Samples.get_props "/health" "abc-1")
              (Samples.steady {["ENVIRONMENT" := "unhealthy"]} (10 * Samples.MiB))
              (10 * Samples.MiB))
    as (r & m & e & g & Hr & _ & Hmem & _ & _ & Hlow & _ & _ & _ & _ & _ & _ & Hvar).
  - sample_runtime.
  - reflexivity.
  - exists r. split; [exact Hr|].
    destruct Hvar as (Hs & Hb); [left; vm_compute; reflexivity|].
    split; [exact Hs|]. split; [exact Hb|].
    rewrite <- (Hlow Hle). exact Hmem.
Defined.

(** C1, as stated, fails: with [ENVIRONMENT] set to the string "unhealthy"
    a heap sample in the warning band (100 MiB, about 78%) gives a memory
    check "warning" but the overall status "degraded" and status code 503. *)
Lemma warning_band_can_be_degraded :
  above_percent (100 * Samples.MiB) 70
  /\ at_most_percent (100 * Samples.MiB) 90
  /\ exists r,
       outcome Health.handler (Samples.get_event "/health" "abc-1")
         (Samples.steady {["ENVIRONMENT" := "unhealthy"]} (100 * Samples.MiB))
         = Resolved r
       /\ r = health_report (VStr "abc-1") "2024-01-01T00:00:00.000Z"
                "warning" "unhealthy" "unknown" "1.0.0"
       /\ body_has_in r "checks" "memory" (VStr "warning")
       /\ body_has r "status" (VStr "degraded")
       /\ statusCode r = VNum 503
       /\ statusCode r <> VNum 200.
Proof.
  split; [vm_compute; reflexivity|].
  split; [vm_compute; intros E; discriminate E|].
  eexists. split; [|split; [reflexivity|]].
  - vm_compute. reflexivity.
  - destruct (health_report_reads (VStr "abc-1") "2024-01-01T00:00:00.000Z" "warning"
                "unhealthy" "unknown" "1.0.0") as (Hs & _ & Hb & _ & Hm & _).
    repeat split; try assumption. discriminate.
Qed.

(** C1, amended. For every event object, every heap sample and a working
    logger: a sample of more than 70% and at most 90% of 128 MiB gives the
    memory check "warning", and then the overall status is "healthy" with
    status code 200 provided neither [ENVIRONMENT] nor [AWS_REGION] is the
    string "unhealthy"; a sample of more than 90% gives the memory check
    "unhealthy", the overall status "degraded" and status code 503. *)
Theorem memory_band_decides_status
    (ps : list (string * value)) (w : Runtime) (h : Z) :
  logging_works w ->
  memoryUsage w = inr h ->
  exists r,
    outcome Health.handler (VObj ps) w = Resolved r
    /\ (above_percent h 70 -> at_most_percent h 90 ->
        body_has_in r "checks" "memory" (VStr "warning")
        /\ (env w !! "ENVIRONMENT" <> Some "unhealthy" ->
            env w !! "AWS_REGION" <> Some "unhealthy" ->
            body_has r "status" (VStr "healthy") /\ statusCode r = VNum 200))
    /\ (above_percent h 90 ->
        body_has_in r "checks" "memory" (VStr "unhealthy")
        /\ body_has r "status" (VStr "degraded")
        /\ statusCode r = VNum 503).
Proof.
  intros Hl Hm. destruct (logging_timestamps w Hl) as (t1 & t2 & Ht1 & Ht2).
  pose proof (health_outcome_logging ps w t1 t2 Hl Ht1 Ht2) as Ho. rewrite Hm in Ho.
  eexists. split; [exact Ho|].
  destruct (health_report_reads (chosen_requestId (VObj ps)) t1 (memory_status h)
              (configured w "ENVIRONMENT" "dev") (configured w "AWS_REGION" "unknown")
              (configured w "API_VERSION" "1.0.0"))
    as (Hs & _ & Hb & _ & Hmem & _).
  destruct (memory_status_bands h) as (_ & Hwarn & Hbad).
  split.
  - intros Hgt Hle. rewrite (Hwarn Hgt Hle) in *. split; [exact Hmem|].
    intros He Hg.
    assert (Hok : all_healthy "warning" (configured w "ENVIRONMENT" "dev")
                    (configured w "AWS_REGION" "unknown") = true).
    { apply all_healthy_spec. split; [discriminate|]. unfold configured.
      split.
      - destruct (env w !! "ENVIRONMENT") as [v|]; [|discriminate].
        destruct (String.eqb_spec v ""); [discriminate|]. congruence.
      - destruct (env w !! "AWS_REGION") as [v|]; [|discriminate].
        destruct (String.eqb_spec v ""); [discriminate|]. congruence. }
    rewrite Hok in Hs, Hb. split; assumption.
  - intros Hgt. rewrite (Hbad Hgt) in *.
    assert (Hdeg : all_healthy "unhealthy" (configured w "ENVIRONMENT" "dev")
                     (configured w "AWS_REGION" "unknown") = false) by reflexivity.
    rewrite Hdeg in Hs, Hb. auto.
Qed.

Lemma memory_band_decides_status_witness :
  exists r,
    outcome Health.handler (Samples.get_event "/health" "memory-warning-test")
            (Samples.steady ∅ (95 * Samples.MiB)) = Resolved r
    /\ body_has_in r "checks" "memory" (VStr "warning")
    /\ body_has r "status" (VStr "healthy")
    /\ statusCode r = VNum 200.
Proof.
  destruct (memory_band_decides_status
              (Samples.get_props "/health" "memory-warning-test")
              (Samples.steady ∅ (95 * Samples.MiB)) (95 * Samples.MiB))
    as (r & Hr & Hwarn & _).
  - sample_runtime.
  - reflexivity.
  - destruct Hwarn as (Hm & Hrest).
    + vm_compute. reflexivity.
    + vm_compute. intros E. discriminate E.
    + destruct Hrest as (Hs & Hc).
      * vm_compute. discriminate.
      * vm_compute. discriminate.
      * exists r. auto.
Defined.

(** *** An empty request id *)




(** ** Further properties *)

Import Trace.

Local Transparent spread Z_to_string.

(** *** The logging helper *)

Lemma lookup_define_prop_eq (k : string) (v : value) (ps : list (string * value)) :
  lookup_prop k (define_prop k v ps) = v.
Proof.
  induction ps as [|[k0 v0] ps IH]; cbn.
  - now rewrite String.eqb_refl.
  - destruct (String.eqb_spec k k0) as [->|Hne]; cbn.
    + now rewrite String.eqb_refl.
    + destruct (String.eqb_spec k k0); [contradiction | exact IH].
Qed.

Lemma define_prop_keys (k : string) (v : value) (ps : list (string * value)) :
  map fst (define_prop k v ps)
  = if bool_decide (k ∈@{list string} map fst ps) then map fst ps
    else (map fst ps ++ [k])%list.
Proof.
  induction ps as [|[k0 v0] ps IH]; cbn.
  - case_bool_decide as H; [inversion H | reflexivity].
  - destruct (String.eqb_spec k k0) as [->|Hne]; cbn.
    + rewrite bool_decide_eq_true_2 by left. reflexivity.
    + rewrite IH. case_bool_decide as H1; case_bool_decide as H2; try reflexivity.
      * exfalso. apply H2. now right.
      * exfalso. apply H1. inversion H2; subst; [contradiction | assumption].
Qed.

Lemma define_prop_NoDup (k : string) (v : value) (ps : list (string * value)) :
  NoDup (map fst ps) -> NoDup (map fst (define_prop k v ps)).
Proof.
  intros H. rewrite define_prop_keys. case_bool_decide as Hin; [exact H|].
  apply NoDup_app. split; [exact H|]. split.
  - intros x Hx Hx'. apply list_elem_of_singleton in Hx'. subst. contradiction.
  - apply NoDup_singleton.
Qed.

Lemma spread_NoDup (data base : list (string * value)) :
  NoDup (map fst base) -> NoDup (map fst (spread base data)).
Proof.
  revert base. induction data as [|[k v] data IH]; intros base H; cbn.
  - exact H.
  - apply IH. now apply define_prop_NoDup.
Qed.

Lemma spread_lookup (k : string) (data base : list (string * value)) :
  lookup_prop k (spread base data)
  = match last_prop k data with
    | Some v => v
    | None => lookup_prop k base
    end.
Proof.
  revert base. induction data as [|[k' v'] data IH]; intros base; cbn.
  - reflexivity.
  - unfold spread in IH. rewrite IH. destruct (last_prop k data); [reflexivity|].
    destruct (String.eqb_spec k k') as [->|Hne].
    + apply lookup_define_prop_eq.
    + now apply lookup_define_prop_ne.
Qed.

(** The logging helper, when its timestamp and its console call return. *)
Lemma log_returns (level message : string) (data : list (string * value))
    (w : Runtime) (s : State) (t : string) :
  toISOString w (dates s) = inr t ->
  console_log w (log_calls s) = None ->
  log level message data w s
  = (inr tt, mkState (clock_reads s) (S (dates s)) (S (log_calls s))
               (stdout s ++ [log_line t level message data])).
Proof.
  intros Ht Hc. unfold log, bind, new_Date_toISOString, console_log_call.
  rewrite Ht. cbn. rewrite Hc. reflexivity.
Qed.

(** X1. When its timestamp and its console call return, the logging helper
    prints exactly one record, the JSON text of an object with distinct
    keys; a key of the context wins over the helper's own [timestamp],
    [level] and [message], and among equal context keys the last wins. *)
Theorem log_prints_one_record (level message : string)
    (data : list (string * value)) (w : Runtime) (s : State) (t : string) :
  toISOString w (dates s) = inr t ->
  console_log w (log_calls s) = None ->
  exists ps,
    log level message data w s
    = (inr tt, mkState (clock_reads s) (S (dates s)) (S (log_calls s))
                 (stdout s ++ [JSON_stringify (VObj ps)]))
    /\ NoDup (map fst ps)
    /\ forall k,
         lookup_prop k ps
         = match last_prop k data with
           | Some v => v
           | None => lookup_prop k [("timestamp", VStr t);
                                    ("level", VStr level);
                                    ("message", VStr message)]
           end.
Proof.
  intros Ht Hc. eexists. split; [|split].
  - rewrite (log_returns level message data w s t Ht Hc). reflexivity.
  - apply spread_NoDup. distinct_keys.
  - intros k. apply spread_lookup.
Qed.

Lemma log_prints_one_record_witness :
  exists ps,
    log "INFO" "started" [("message", VStr "shadowed"); ("requestId", VStr "r-1")]
        (Samples.steady ∅ 0) initial
    = (inr tt, mkState 0 1 1 [JSON_stringify (VObj ps)])
    /\ lookup_prop "message" ps = VStr "shadowed"
    /\ lookup_prop "level" ps = VStr "INFO"
    /\ lookup_prop "requestId" ps = VStr "r-1".
Proof.
  destruct (log_prints_one_record "INFO" "started"
              [("message", VStr "shadowed"); ("requestId", VStr "r-1")]
              (Samples.steady ∅ 0) initial "2024-01-01T00:00:00.000Z"
              eq_refl eq_refl) as (ps & Hrun & _ & Hlook).
  exists ps. split; [exact Hrun|].
  split; [exact (Hlook "message")|]. split; [exact (Hlook "level")|].
  exact (Hlook "requestId").
Defined.

(** *** The records a greeting leaves *)

Ltac unfold_handler :=
  unfold invoke, Hello.handler, Health.handler, try_catch;
  unfold_m; cbn.

(** X2. On its success path (the three timestamps, the two clock readings
    and the two console calls return) the greeting handler, on any event
    object, prints exactly two records, both at level INFO: the request
    with its id, path, method and source address, and the completion with
    the elapsed time, which is the difference of the two clock readings
    and the number in the [X-Processing-Time] header; the body carries the
    second timestamp. *)
Theorem greeting_success_trace (ps : list (string * value)) (w : Runtime)
    (t0 t1 t2 : string) (a b : Z) :
  toISOString w 0%nat = inr t0 -> console_log w 0%nat = None ->
  Date_now w 0%nat = inr a ->
  toISOString w 1%nat = inr t1 ->
  Date_now w 1%nat = inr b ->
  toISOString w 2%nat = inr t2 -> console_log w 1%nat = None ->
  invoke (Hello.handler (VObj ps)) w
  = (Resolved (hello_ok (chosen_requestId (VObj ps)) t1 (b - a)
                 (configured w "API_VERSION" "1.0.0")
                 (configured w "ENVIRONMENT" "dev")),
     mkState 2 3 2
       [log_line t0 "INFO" "Processing Hello World request"
          [("requestId", chosen_requestId (VObj ps));
           ("path", lookup_prop "path" ps);
           ("method", lookup_prop "httpMethod" ps);
           ("sourceIp",
            get_opt (get_opt (lookup_prop "requestContext" ps) "identity")
                    "sourceIp")];
        log_line t2 "INFO" "Successfully processed request"
          [("requestId", chosen_requestId (VObj ps));
           ("processingTime", VNum (b - a))]]).
Proof.
  intros Ht0 Hc0 Ha Ht1 Hb Ht2 Hc1. unfold_handler.
  rewrite Ht0. cbn. rewrite Hc0. cbn. rewrite Ha. cbn. rewrite Ht1. cbn.
  rewrite Hb. cbn. rewrite Ht2. cbn. rewrite Hc1. cbn. rewrite !or_else_env.
  reflexivity.
Qed.

Lemma greeting_success_trace_witness :
  invoke (Hello.handler (Samples.get_event "/hello" "abc-1"))
         (Samples.steady ∅ (10 * Samples.MiB))
  = (Resolved (hello_ok (VStr "abc-1") "2024-01-01T00:00:00.000Z" 1 "1.0.0" "dev"),
     mkState 2 3 2
       [log_line "2024-01-01T00:00:00.000Z" "INFO" "Processing Hello World request"
          [("requestId", VStr "abc-1"); ("path", VStr "/hello");
           ("method", VStr "GET"); ("sourceIp", VUndefined)];
        log_line "2024-01-01T00:00:00.000Z" "INFO" "Successfully processed request"
          [("requestId", VStr "abc-1"); ("processingTime", VNum 1)]]).
Proof.
  exact (greeting_success_trace (Samples.get_props "/hello" "abc-1")
           (Samples.steady ∅ (10 * Samples.MiB))
           "2024-01-01T00:00:00.000Z" "2024-01-01T00:00:00.000Z"
           "2024-01-01T00:00:00.000Z" 1700000000000 1700000000001
           eq_refl eq_refl eq_refl eq_refl eq_refl eq_refl eq_refl).
Defined.

(** X3. When a clock reading throws, the greeting handler, on any event
    object, prints the request record and then one record at level ERROR
    with the message and the stack of the error, and returns the 500
    response, which carries neither; this holds for a failure of the first
    reading and for a failure of the second. *)
Theorem greeting_failure_trace (ps : list (string * value)) (w : Runtime)
    (t0 t1 t2 : string) (a : Z) (e : JsError) :
  toISOString w 0%nat = inr t0 -> console_log w 0%nat = None ->
  toISOString w 1%nat = inr t1 -> console_log w 1%nat = None ->
  (Date_now w 0%nat = inl e ->
   invoke (Hello.handler (VObj ps)) w
   = (Resolved (hello_error (chosen_requestId (VObj ps))),
      mkState 1 2 2
        [log_line t0 "INFO" "Processing Hello World request"
           [("requestId", chosen_requestId (VObj ps));
            ("path", lookup_prop "path" ps);
            ("method", lookup_prop "httpMethod" ps);
            ("sourceIp",
             get_opt (get_opt (lookup_prop "requestContext" ps) "identity")
                     "sourceIp")];
         log_line t1 "ERROR" "Failed to process request"
           [("requestId", chosen_requestId (VObj ps));
            ("error", VStr (message e));
            ("stack", VStr (stack e))]]))
  /\ (Date_now w 0%nat = inr a -> Date_now w 1%nat = inl e ->
      toISOString w 2%nat = inr t2 ->
      invoke (Hello.handler (VObj ps)) w
      = (Resolved (hello_error (chosen_requestId (VObj ps))),
         mkState 2 3 2
           [log_line t0 "INFO" "Processing Hello World request"
              [("requestId", chosen_requestId (VObj ps));
               ("path", lookup_prop "path" ps);
               ("method", lookup_prop "httpMethod" ps);
               ("sourceIp",
                get_opt (get_opt (lookup_prop "requestContext" ps) "identity")
                        "sourceIp")];
            log_line t2 "ERROR" "Failed to process request"
              [("requestId", chosen_requestId (VObj ps));
               ("error", VStr (message e));
               ("stack", VStr (stack e))]])).
Proof.
  intros Ht0 Hc0 Ht1 Hc1. split.
  - intros Ha. unfold_handler.
    rewrite Ht0. cbn. rewrite Hc0. cbn. rewrite Ha. cbn. rewrite Ht1. cbn.
    rewrite Hc1. reflexivity.
  - intros Ha Hb Ht2. unfold_handler.
    rewrite Ht0. cbn. rewrite Hc0. cbn. rewrite Ha. cbn. rewrite Ht1. cbn.
    rewrite Hb. cbn. rewrite Ht2. cbn. rewrite Hc1. reflexivity.
Qed.

Lemma greeting_failure_trace_witness :
  invoke (Hello.handler (Samples.get_event "/hello" "test-error"))
         (Samples.clock_fails ∅ (10 * Samples.MiB))
  = (Resolved (hello_error (VStr "test-error")),
     mkState 1 2 2
       [log_line "2024-01-01T00:00:00.000Z" "INFO" "Processing Hello World request"
          [("requestId", VStr "test-error"); ("path", VStr "/hello");
           ("method", VStr "GET"); ("sourceIp", VUndefined)];
        log_line "2024-01-01T00:00:00.000Z" "ERROR" "Failed to process request"
          [("requestId", VStr "test-error");
           ("error", VStr "Simulated error");
           ("stack", VStr "Error: Simulated error")]]).
Proof.
  exact (proj1 (greeting_failure_trace (Samples.get_props "/hello" "test-error")
                  (Samples.clock_fails ∅ (10 * Samples.MiB))
                  "2024-01-01T00:00:00.000Z" "2024-01-01T00:00:00.000Z"
                  "2024-01-01T00:00:00.000Z" 0
                  (mkError "Simulated error" "Error: Simulated error")
                  eq_refl eq_refl eq_refl eq_refl)
               eq_refl).
Defined.

(** *** The records a health check leaves *)

(** X4. When the memory sample, the three timestamps and the two console
    calls return, the health handler, on any event object, prints exactly
    two records at level INFO: the request with its id, path and method,
    and the completion with the overall status, the same status as in the
    body; the clock is not read, and the body carries the second
    timestamp. *)
Theorem health_success_trace (ps : list (string * value)) (w : Runtime)
    (t0 t1 t2 : string) (h : Z) :
  toISOString w 0%nat = inr t0 -> console_log w 0%nat = None ->
  memoryUsage w = inr h ->
  toISOString w 1%nat = inr t1 ->
  toISOString w 2%nat = inr t2 -> console_log w 1%nat = None ->
  invoke (Health.handler (VObj ps)) w
  = (Resolved (health_report (chosen_requestId (VObj ps)) t1 (memory_status h)
                 (configured w "ENVIRONMENT" "dev")
                 (configured w "AWS_REGION" "unknown")
                 (configured w "API_VERSION" "1.0.0")),
     mkState 0 3 2
       [log_line t0 "INFO" "Health check requested"
          [("requestId", chosen_requestId (VObj ps));
           ("path", lookup_prop "path" ps);
           ("method", lookup_prop "httpMethod" ps)];
        log_line t2 "INFO" "Health check completed"
          [("requestId", chosen_requestId (VObj ps));
           ("status",
            VStr (if all_healthy (memory_status h)
                       (configured w "ENVIRONMENT" "dev")
                       (configured w "AWS_REGION" "unknown")
                  then "healthy" else "degraded"))]]).
Proof.
  intros Ht0 Hc0 Hm Ht1 Ht2 Hc1. unfold_handler.
  rewrite Ht0. cbn. rewrite Hc0. cbn. rewrite (checkMemory_sampled w _ h Hm). cbn.
  rewrite Ht1. cbn. rewrite Ht2. cbn. rewrite Hc1. cbn. rewrite !or_else_env.
  reflexivity.
Qed.

Lemma health_success_trace_witness :
  invoke (Health.handler (Samples.get_event "/health" "health-log-test"))
         (Samples.steady ∅ (10 * Samples.MiB))
  = (Resolved (health_report (VStr "health-log-test") "2024-01-01T00:00:00.000Z"
                 "healthy" "dev" "unknown" "1.0.0"),
     mkState 0 3 2
       [log_line "2024-01-01T00:00:00.000Z" "INFO" "Health check requested"
          [("requestId", VStr "health-log-test"); ("path", VStr "/health");
           ("method", VStr "GET")];
        log_line "2024-01-01T00:00:00.000Z" "INFO" "Health check completed"
          [("requestId", VStr "health-log-test"); ("status", VStr "healthy")]]).
Proof.
  exact (health_success_trace (Samples.get_props "/health" "health-log-test")
           (Samples.steady ∅ (10 * Samples.MiB))
           "2024-01-01T00:00:00.000Z" "2024-01-01T00:00:00.000Z"
           "2024-01-01T00:00:00.000Z" (10 * Samples.MiB)
           eq_refl eq_refl eq_refl eq_refl eq_refl eq_refl).
Defined.

(** X5. When [process.memoryUsage] throws, the health handler, on any
    event object, prints the request record and then one record at level
    ERROR with the message and the stack of the error, and returns the 503
    error response with a fresh timestamp; the response carries neither
    message nor stack. *)
Theorem health_failure_trace (ps : list (string * value)) (w : Runtime)
    (t0 t1 t2 : string) (e : JsError) :
  toISOString w 0%nat = inr t0 -> console_log w 0%nat = None ->
  memoryUsage w = inl e ->
  toISOString w 1%nat = inr t1 -> console_log w 1%nat = None ->
  toISOString w 2%nat = inr t2 ->
  invoke (Health.handler (VObj ps)) w
  = (Resolved (health_error (chosen_requestId (VObj ps)) t2),
     mkState 0 3 2
       [log_line t0 "INFO" "Health check requested"
          [("requestId", chosen_requestId (VObj ps));
           ("path", lookup_prop "path" ps);
           ("method", lookup_prop "httpMethod" ps)];
        log_line t1 "ERROR" "Health check failed"
          [("requestId", chosen_requestId (VObj ps));
           ("error", VStr (message e));
           ("stack", VStr (stack e))]]).
Proof.
  intros Ht0 Hc0 Hm Ht1 Hc1 Ht2. unfold_handler.
  rewrite Ht0. cbn. rewrite Hc0. cbn. rewrite (checkMemory_throws w _ e Hm). cbn.
  rewrite Ht1. cbn. rewrite Hc1. cbn. rewrite Ht2. reflexivity.
Qed.

Lemma health_failure_trace_witness :
  invoke (Health.handler (Samples.get_event "/health" "health-error-log"))
         (Samples.memory_fails ∅)
  = (Resolved (health_error (VStr "health-error-log") "2024-01-01T00:00:00.000Z"),
     mkState 0 3 2
       [log_line "2024-01-01T00:00:00.000Z" "INFO" "Health check requested"
          [("requestId", VStr "health-error-log"); ("path", VStr "/health");
           ("method", VStr "GET")];
        log_line "2024-01-01T00:00:00.000Z" "ERROR" "Health check failed"
          [("requestId", VStr "health-error-log");
           ("error", VStr "Memory check failed");
           ("stack", VStr "Error: Memory check failed")]]).
Proof.
  exact (health_failure_trace (Samples.get_props "/health" "health-error-log")
           (Samples.memory_fails ∅)
           "2024-01-01T00:00:00.000Z" "2024-01-01T00:00:00.000Z"
           "2024-01-01T00:00:00.000Z"
           (mkError "Memory check failed" "Error: Memory check failed")
           eq_refl eq_refl eq_refl eq_refl eq_refl eq_refl).
Defined.

(** *** Headers *)

(** X6. Every response that either handler returns, for any event and in
    any process, carries [Content-Type: application/json] and
    [Access-Control-Allow-Origin: *].  A greeting carries the allowed
    methods and headers exactly on its 200 response; its 500 response has
    neither them nor a processing time.  Every health response forbids
    caching. *)
Theorem responses_carry_common_headers (event : value) (w : Runtime) (r : value) :
  (outcome Hello.handler event w = Resolved r ->
   header r "Content-Type" = VStr "application/json"
   /\ header r "Access-Control-Allow-Origin" = VStr "*"
   /\ ((statusCode r = VNum 200
        /\ header r "Access-Control-Allow-Methods" = VStr "GET,OPTIONS"
        /\ header r "Access-Control-Allow-Headers"
           = VStr "Content-Type,X-Amz-Date,Authorization,X-Api-Key,X-Amz-Security-Token")
       \/ (statusCode r = VNum 500
           /\ header r "Access-Control-Allow-Methods" = VUndefined
           /\ header r "Access-Control-Allow-Headers" = VUndefined
           /\ header r "X-Processing-Time" = VUndefined)))
  /\ (outcome Health.handler event w = Resolved r ->
      header r "Content-Type" = VStr "application/json"
      /\ header r "Access-Control-Allow-Origin" = VStr "*"
      /\ header r "Cache-Control" = VStr "no-cache, no-store, must-revalidate").
Proof.
  split; intros Hr.
  - apply hello_handler_returns in Hr. destruct Hr as [(t & el & ->) | ->].
    + repeat split. left. repeat split.
    + repeat split. right. repeat split.
  - apply health_handler_returns in Hr.
    destruct Hr as [(t & h & _ & ->) | (t & ->)]; repeat split.
Qed.

Lemma responses_carry_common_headers_witness :
  header (hello_error (VStr "test-error")) "Content-Type" = VStr "application/json"
  /\ header (hello_error (VStr "test-error")) "Access-Control-Allow-Origin" = VStr "*"
  /\ header (hello_error (VStr "test-error")) "Access-Control-Allow-Methods"
     = VUndefined.
Proof.
  destruct (proj1 (responses_carry_common_headers
                     (Samples.get_event "/hello" "test-error")
                     (Samples.clock_fails ∅ (10 * Samples.MiB))
                     (hello_error (VStr "test-error"))))
    as (Hc & Ho & [(Hs & _) | (_ & Hm & _)]).
  - vm_compute. reflexivity.
  - discriminate Hs.
  - auto.
Defined.

Lemma all_digits_uint (u : Decimal.uint) :
  all_digits (NilEmpty.string_of_uint u) = true.
Proof. induction u; cbn; auto. Qed.

Lemma Z_to_string_nonneg (n : Z) :
  0 <= n -> Z_to_string n <> "" /\ all_digits (Z_to_string n) = true.
Proof.
  intros Hn. unfold Z_to_string.
  destruct n as [|p|p]; [split; [discriminate | reflexivity] | | lia].
  cbn. split.
  - destruct (Pos.to_uint p); discriminate.
  - destruct (Pos.to_uint p) eqn:E; try reflexivity; rewrite <- E;
      cbn [NilZero.string_of_uint]; rewrite E; apply (all_digits_uint (_ _)).
Qed.

Lemma Z_to_string_neg (n : Z) :
  n < 0 -> exists digits, Z_to_string n = String "-" digits.
Proof.
  intros Hn. unfold Z_to_string. destruct n as [|p|p]; try lia.
  cbn. eauto.
Qed.

(** X7. For clock readings that are non-negative integers below [2^53],
    as [Date.now] returns them and on which the subtraction and the
    printing of the source are exact, the [X-Processing-Time] header of a
    greeting is the decimal numeral of the second reading minus the first,
    followed by "ms": a non-empty run of digits when the clock did not
    step back, and a numeral with a minus sign when it did. *)
Theorem processing_time_header (ps : list (string * value)) (w : Runtime) (a b : Z) :
  logging_works w ->
  Date_now w 0%nat = inr a -> Date_now w 1%nat = inr b ->
  0 <= a < 2 ^ 53 -> 0 <= b < 2 ^ 53 ->
  exists r numeral,
    outcome Hello.handler (VObj ps) w = Resolved r
    /\ header r "X-Processing-Time" = VStr (numeral +:+ "ms")
    /\ numeral = Z_to_string (b - a)
    /\ - 2 ^ 53 < b - a < 2 ^ 53
    /\ (a <= b -> numeral <> "" /\ all_digits numeral = true)
    /\ (b < a -> exists digits, numeral = String "-" digits).
Proof.
  intros Hl Ha Hb Hra Hrb. destruct (logging_timestamps w Hl) as (t & _ & Ht1 & _).
  pose proof (hello_outcome_logging ps w t Hl Ht1) as Ho. rewrite Ha, Hb in Ho.
  do 2 eexists. split; [exact Ho|]. split; [reflexivity|]. split; [reflexivity|].
  split; [lia|]. split.
  - intros Hle. apply Z_to_string_nonneg. lia.
  - intros Hlt. apply Z_to_string_neg. lia.
Qed.

Lemma processing_time_header_witness :
  exists r numeral,
    outcome Hello.handler (Samples.get_event "/hello" "test-timing")
            (Samples.steady ∅ (10 * Samples.MiB)) = Resolved r
    /\ header r "X-Processing-Time" = VStr (numeral +:+ "ms")
    /\ numeral <> "" /\ all_digits numeral = true.
Proof.
  destruct (processing_time_header (Samples.get_props "/hello" "test-timing")
              (Samples.steady ∅ (10 * Samples.MiB)) 1700000000000 1700000000001)
    as (r & numeral & Hr & Hh & _ & _ & Hpos & _).
  - sample_runtime.
  - reflexivity.
  - reflexivity.
  - lia.
  - lia.
  - exists r, numeral. split; [exact Hr|]. split; [exact Hh|].
    apply Hpos. lia.
Defined.

(** *** The health report *)

Ltac read_body_in :=
  do 2 eexists; split; [reflexivity | split; [distinct_keys |
    split; [reflexivity | split; [distinct_keys | reflexivity]]]].

(** X8. In every health report (event object, working logger, a memory
    sample) the checks map reads [lambda] "healthy", [environment] the
    value of [ENVIRONMENT] or "dev", [region] the value of [AWS_REGION] or
    "unknown", and the body's [version] the value of [API_VERSION] or
    "1.0.0", where a variable that is unset or empty gives the default. *)
Theorem health_report_configuration (ps : list (string * value)) (w : Runtime) (h : Z) :
  logging_works w ->
  memoryUsage w = inr h ->
  exists r,
    outcome Health.handler (VObj ps) w = Resolved r
    /\ body_has_in r "checks" "lambda" (VStr "healthy")
    /\ body_has_in r "checks" "environment" (VStr (configured w "ENVIRONMENT" "dev"))
    /\ body_has_in r "checks" "region" (VStr (configured w "AWS_REGION" "unknown"))
    /\ body_has r "version" (VStr (configured w "API_VERSION" "1.0.0")).
Proof.
  intros Hl Hm. destruct (logging_timestamps w Hl) as (t1 & t2 & Ht1 & Ht2).
  pose proof (health_outcome_logging ps w t1 t2 Hl Ht1 Ht2) as Ho. rewrite Hm in Ho.
  eexists. split; [exact Ho|].
  split; [read_body_in|]. split; [read_body_in|]. split; [read_body_in|]. read_body.
Qed.

Lemma health_report_configuration_witness :
  exists r,
    outcome Health.handler (Samples.get_event "/health" "health-env-test")
      (Samples.steady {["ENVIRONMENT" := "production"; "AWS_REGION" := "us-west-2";
                        "API_VERSION" := "2.1.0"]} (10 * Samples.MiB)) = Resolved r
    /\ body_has_in r "checks" "lambda" (VStr "healthy")
    /\ body_has_in r "checks" "environment" (VStr "production")
    /\ body_has_in r "checks" "region" (VStr "us-west-2")
    /\ body_has r "version" (VStr "2.1.0").
Proof.
  destruct (health_report_configuration
              (Samples.get_props "/health" "health-env-test")
              (Samples.steady {["ENVIRONMENT" := "production";
                                "AWS_REGION" := "us-west-2";
                                "API_VERSION" := "2.1.0"]} (10 * Samples.MiB))
              (10 * Samples.MiB))
    as (r & Hr & Hl & He & Hg & Hv).
  - sample_runtime.
  - reflexivity.
  - exists r. split; [exact Hr|]. split; [exact Hl|].
    split; [|split].
    + replace "production" with
        (configured (Samples.steady {["ENVIRONMENT" := "production";
                                      "AWS_REGION" := "us-west-2";
                                      "API_VERSION" := "2.1.0"]} (10 * Samples.MiB))
                    "ENVIRONMENT" "dev")
        by (vm_compute; reflexivity).
      exact He.
    + replace "us-west-2" with
        (configured (Samples.steady {["ENVIRONMENT" := "production";
                                      "AWS_REGION" := "us-west-2";
                                      "API_VERSION" := "2.1.0"]} (10 * Samples.MiB))
                    "AWS_REGION" "unknown")
        by (vm_compute; reflexivity).
      exact Hg.
    + replace "2.1.0" with
        (configured (Samples.steady {["ENVIRONMENT" := "production";
                                      "AWS_REGION" := "us-west-2";
                                      "API_VERSION" := "2.1.0"]} (10 * Samples.MiB))
                    "API_VERSION" "1.0.0")
        by (vm_compute; reflexivity).
      exact Hv.
Defined.

Lemma configured_unhealthy (w : Runtime) (name default : string) :
  default <> "unhealthy" ->
  configured w name default = "unhealthy" <-> env w !! name = Some "unhealthy".
Proof.
  intros Hd. unfold configured. destruct (env w !! name) as [v|].
  - destruct (String.eqb_spec v "") as [->|Hne].
    + split; [intros E; contradiction | intros [= E]; discriminate E].
    + split; [intros -> | intros [= ->]]; reflexivity.
  - split; [intros E; contradiction | discriminate].
Qed.

(** X9. The status of a health report is decided by three things and
    nothing else: the answer is 200 with status "healthy" exactly when the
    heap sample is at most 90% of 128 MiB and neither [ENVIRONMENT] nor
    [AWS_REGION] is the string "unhealthy"; in every other case it is 503
    with status "degraded". *)
Theorem health_status_characterised (ps : list (string * value)) (w : Runtime) (h : Z) :
  logging_works w ->
  memoryUsage w = inr h ->
  exists r,
    outcome Health.handler (VObj ps) w = Resolved r
    /\ ((at_most_percent h 90
         /\ env w !! "ENVIRONMENT" <> Some "unhealthy"
         /\ env w !! "AWS_REGION" <> Some "unhealthy"
         /\ statusCode r = VNum 200
         /\ body_has r "status" (VStr "healthy"))
        \/ ((above_percent h 90
             \/ env w !! "ENVIRONMENT" = Some "unhealthy"
             \/ env w !! "AWS_REGION" = Some "unhealthy")
            /\ statusCode r = VNum 503
            /\ body_has r "status" (VStr "degraded"))).
Proof.
  intros Hl Hm. destruct (logging_timestamps w Hl) as (t1 & t2 & Ht1 & Ht2).
  pose proof (health_outcome_logging ps w t1 t2 Hl Ht1 Ht2) as Ho. rewrite Hm in Ho.
  eexists. split; [exact Ho|].
  destruct (health_report_reads (chosen_requestId (VObj ps)) t1 (memory_status h)
              (configured w "ENVIRONMENT" "dev") (configured w "AWS_REGION" "unknown")
              (configured w "API_VERSION" "1.0.0"))
    as (Hs & _ & Hb & _).
  pose proof (configured_unhealthy w "ENVIRONMENT" "dev" ltac:(discriminate)) as He.
  pose proof (configured_unhealthy w "AWS_REGION" "unknown" ltac:(discriminate)) as Hg.
  destruct (memory_status_bands h) as (Hlow & Hmid & Hhigh).
  destruct (all_healthy _ _ _) eqn:Hall.
  - left. apply all_healthy_spec in Hall. destruct Hall as (Hmem & Hen & Hre).
    repeat split; try assumption.
    + apply not_above_at_most. intros Hgt. apply Hmem, Hhigh, Hgt.
    + intros E. apply Hen, He, E.
    + intros E. apply Hre, Hg, E.
  - right. split; [|split; assumption].
    apply not_true_iff_false in Hall. rewrite all_healthy_spec in Hall.
    destruct (decide (configured w "ENVIRONMENT" "dev" = "unhealthy")) as [E|E];
      [right; left; apply He, E|].
    destruct (decide (configured w "AWS_REGION" "unknown" = "unhealthy")) as [G|G];
      [right; right; apply Hg, G|].
    left. unfold above_percent, at_most_percent in *.
    destruct (Z_lt_le_dec (90 * budget) (100 * h)) as [Hgt|Hle]; [exact Hgt|].
    exfalso. apply Hall. split; [|split; assumption].
    destruct (Z_lt_le_dec (70 * budget) (100 * h)) as [Hgt7|Hle7].
    + rewrite (Hmid Hgt7 Hle). discriminate.
    + rewrite (Hlow Hle7). discriminate.
Qed.

Lemma health_status_characterised_witness :
  exists r,
    outcome Health.handler (Samples.get_event "/health" "memory-critical-test")
            (Samples.steady ∅ (120 * Samples.MiB)) = Resolved r
    /\ statusCode r = VNum 503
    /\ body_has r "status" (VStr "degraded").
Proof.
  destruct (health_status_characterised
              (Samples.get_props "/health" "memory-critical-test")
              (Samples.steady ∅ (120 * Samples.MiB)) (120 * Samples.MiB))
    as (r & Hr & [(Hle & _) | (_ & Hs & Hb)]).
  - sample_runtime.
  - reflexivity.
  - exfalso. vm_compute in Hle. apply Hle. reflexivity.
  - exists r. auto.
Defined.

(** *** Events that are not objects, and what of the event matters *)

Lemma get_not_nullish (event : value) (k : string) :
  nullish event = false -> get event k = inr (get_opt event k).
Proof. destruct event; cbn; intros H; try discriminate H; reflexivity. Qed.

(** X10. On the event [null] or [undefined] either handler rejects with a
    [TypeError] before its [try] statement: nothing is logged, no timestamp
    is taken and the clock is not read, in any process.  On every other
    event a handler rejects only with an error that its own logger
    threw. *)
Theorem nullish_event_rejects_silently (event : value) (w : Runtime) :
  (nullish event = true ->
   exists msg,
     invoke (Hello.handler event) w = (Rejected (TypeError msg), initial)
     /\ invoke (Health.handler event) w = (Rejected (TypeError msg), initial))
  /\ (nullish event = false ->
      forall e,
        outcome Hello.handler event w = Rejected e
        \/ outcome Health.handler event w = Rejected e ->
        exists k, toISOString w k = inl e \/ console_log w k = Some e).
Proof.
  split.
  - intros Hn. destruct event; try discriminate Hn; eexists; split; reflexivity.
  - intros Hn e H.
    unfold outcome, invoke, Hello.handler, Health.handler, try_catch, bind, lift in H.
    rewrite !(get_not_nullish event "requestContext" Hn) in H.
    destruct H as [H|H].
    + destruct (Hello.attempt _ _ w initial) as [[e0|r0] s1]; [|discriminate H].
      destruct (Hello.recover _ e0 w s1) as [[e1|r1] s2] eqn:Hr; [|discriminate H].
      injection H as <-. eapply hello_recover_throws, Hr.
    + destruct (Health.attempt _ _ w initial) as [[e0|r0] s1]; [|discriminate H].
      destruct (Health.recover _ e0 w s1) as [[e1|r1] s2] eqn:Hr; [|discriminate H].
      injection H as <-. eapply health_recover_throws, Hr.
Qed.

Lemma nullish_event_rejects_silently_witness :
  exists msg,
    invoke (Hello.handler VUndefined) (Samples.steady ∅ (10 * Samples.MiB))
    = (Rejected (TypeError msg), initial)
    /\ invoke (Health.handler VUndefined) (Samples.steady ∅ (10 * Samples.MiB))
       = (Rejected (TypeError msg), initial).
Proof.
  exact (proj1 (nullish_event_rejects_silently VUndefined
                  (Samples.steady ∅ (10 * Samples.MiB))) eq_refl).
Defined.

(** X11. Of the event, only the request id reaches the response: when the
    logger works, two event objects with the same
    [requestContext.requestId || 'unknown'] get the same answer from either
    handler, whatever their path, method, source address or other
    fields. *)
Theorem response_depends_on_requestId_only
    (ps qs : list (string * value)) (w : Runtime) :
  logging_works w ->
  chosen_requestId (VObj ps) = chosen_requestId (VObj qs) ->
  outcome Hello.handler (VObj ps) w = outcome Hello.handler (VObj qs) w
  /\ outcome Health.handler (VObj ps) w = outcome Health.handler (VObj qs) w.
Proof.
  intros Hl Hid. destruct (logging_timestamps w Hl) as (t1 & t2 & Ht1 & Ht2).
  rewrite (hello_outcome_logging ps w t1 Hl Ht1), (hello_outcome_logging qs w t1 Hl Ht1).
  rewrite (health_outcome_logging ps w t1 t2 Hl Ht1 Ht2),
          (health_outcome_logging qs w t1 t2 Hl Ht1 Ht2).
  rewrite Hid. split; reflexivity.
Qed.

Lemma response_depends_on_requestId_only_witness :
  outcome Hello.handler (Samples.get_event "/hello" "abc-1")
          (Samples.steady ∅ (10 * Samples.MiB))
  = outcome Hello.handler
      (VObj [("httpMethod", VStr "DELETE"); ("path", VStr "/elsewhere");
             ("body", VStr "ignored");
             ("requestContext",
              VObj [("identity", VObj [("sourceIp", VStr "192.168.1.1")]);
                    ("requestId", VStr "abc-1")])])
      (Samples.steady ∅ (10 * Samples.MiB)).
Proof.
  apply (response_depends_on_requestId_only
           (Samples.get_props "/hello" "abc-1")
           [("httpMethod", VStr "DELETE"); ("path", VStr "/elsewhere");
            ("body", VStr "ignored");
            ("requestContext",
             VObj [("identity", VObj [("sourceIp", VStr "192.168.1.1")]);
                   ("requestId", VStr "abc-1")])]
           (Samples.steady ∅ (10 * Samples.MiB))).
  - sample_runtime.
  - reflexivity.
Defined.

(** *** A console that throws *)

(** X12. When [console.log] throws at the request record: if it returns
    at the next call, the handler reports that very failure in an ERROR
    record, the only record printed, and answers 500, respectively 503;
    if it throws again, the promise rejects with the second error, the
    first is lost and nothing at all is printed. *)
Theorem console_failure_trace (ps : list (string * value)) (w : Runtime)
    (t0 t1 t2 : string) (e0 e1 : JsError) :
  toISOString w 0%nat = inr t0 -> console_log w 0%nat = Some e0 ->
  toISOString w 1%nat = inr t1 ->
  (console_log w 1%nat = None ->
   invoke (Hello.handler (VObj ps)) w
   = (Resolved (hello_error (chosen_requestId (VObj ps))),
      mkState 0 2 2
        [log_line t1 "ERROR" "Failed to process request"
           [("requestId", chosen_requestId (VObj ps));
            ("error", VStr (message e0)); ("stack", VStr (stack e0))]])
   /\ (toISOString w 2%nat = inr t2 ->
       invoke (Health.handler (VObj ps)) w
       = (Resolved (health_error (chosen_requestId (VObj ps)) t2),
          mkState 0 3 2
            [log_line t1 "ERROR" "Health check failed"
               [("requestId", chosen_requestId (VObj ps));
                ("error", VStr (message e0)); ("stack", VStr (stack e0))]])))
  /\ (console_log w 1%nat = Some e1 ->
      invoke (Hello.handler (VObj ps)) w = (Rejected e1, mkState 0 2 2 [])
      /\ invoke (Health.handler (VObj ps)) w = (Rejected e1, mkState 0 2 2 [])).
Proof.
  intros Ht0 Hc0 Ht1. split.
  - intros Hc1. split.
    + unfold_handler. rewrite Ht0. cbn. rewrite Hc0. cbn. rewrite Ht1. cbn.
      rewrite Hc1. reflexivity.
    + intros Ht2. unfold_handler. rewrite Ht0. cbn. rewrite Hc0. cbn.
      rewrite Ht1. cbn. rewrite Hc1. cbn. rewrite Ht2. reflexivity.
  - intros Hc1. split.
    + unfold_handler. rewrite Ht0. cbn. rewrite Hc0. cbn. rewrite Ht1. cbn.
      rewrite Hc1. reflexivity.
    + unfold_handler. rewrite Ht0. cbn. rewrite Hc0. cbn. rewrite Ht1. cbn.
      rewrite Hc1. reflexivity.
Qed.

Lemma console_failure_trace_witness :
  invoke (Hello.handler (Samples.get_event "/hello" "abc-1"))
         (Samples.console_fails ∅ (10 * Samples.MiB))
  = (Rejected (mkError "write EPIPE" "Error: write EPIPE"), mkState 0 2 2 [])
  /\ invoke (Health.handler (Samples.get_event "/hello" "abc-1"))
            (Samples.console_fails ∅ (10 * Samples.MiB))
     = (Rejected (mkError "write EPIPE" "Error: write EPIPE"), mkState 0 2 2 []).
Proof.
  exact (proj2 (console_failure_trace (Samples.get_props "/hello" "abc-1")
                  (Samples.console_fails ∅ (10 * Samples.MiB))
                  "2024-01-01T00:00:00.000Z" "2024-01-01T00:00:00.000Z"
                  "2024-01-01T00:00:00.000Z"
                  (mkError "write EPIPE" "Error: write EPIPE")
                  (mkError "write EPIPE" "Error: write EPIPE")
                  eq_refl eq_refl eq_refl)
               eq_refl).
Defined.

(** *** Records are single lines *)

Lemma value_nested_ind (P : value -> Prop) :
  P VUndefined -> P VNull -> (forall b, P (VBool b)) -> (forall n, P (VNum n)) ->
  (forall s, P (VStr s)) ->
  (forall items, Forall P items -> P (VArr items)) ->
  (forall props, Forall (fun kv => P (snd kv)) props -> P (VObj props)) ->
  forall v, P v.
Proof.
  intros Hu Hn Hb Hz Hs Ha Ho. fix IH 1.
  intros [| |b|n|s|items|props];
    [exact Hu | exact Hn | apply Hb | apply Hz | apply Hs | |].
  - apply Ha. induction items as [|x items IHitems]; constructor;
      [apply IH | exact IHitems].
  - apply Ho. induction props as [|[k x] props IHprops]; constructor;
      [apply IH | exact IHprops].
Qed.

Lemma no_control_app (a b : string) :
  no_control (a +:+ b) = no_control a && no_control b.
Proof.
  induction a as [|c a IH]; simpl; [reflexivity|].
  now rewrite IH, andb_assoc.
Qed.

Lemma escape_byte_no_control (c : ascii) : no_control (escape_byte c) = true.
Proof. destruct c as [[] [] [] [] [] [] [] []]; vm_compute; reflexivity. Qed.

Lemma escape_no_control (s : string) : no_control (escape s) = true.
Proof.
  induction s as [|c s IH]; cbn; [reflexivity|].
  now rewrite no_control_app, escape_byte_no_control, IH.
Qed.

Lemma quote_no_control (s : string) : no_control (quote s) = true.
Proof.
  unfold quote. now rewrite !no_control_app, escape_no_control.
Qed.

Lemma all_digits_no_control (s : string) : all_digits s = true -> no_control s = true.
Proof.
  induction s as [|c s IH]; cbn; [reflexivity|].
  rewrite !andb_true_iff, !N.leb_le. intros [[Hlo Hhi] Hs]. split; [lia | auto].
Qed.

Lemma Z_to_string_no_control (n : Z) : no_control (Z_to_string n) = true.
Proof.
  destruct (Z_lt_le_dec n 0) as [Hneg|Hpos].
  - unfold Z_to_string. destruct n as [|p|p]; try lia. cbn.
    apply all_digits_no_control.
    destruct (Pos.to_uint p) eqn:E; try reflexivity; rewrite <- E;
      cbn [NilZero.string_of_uint]; rewrite E; apply (all_digits_uint (_ _)).
  - apply all_digits_no_control, Z_to_string_nonneg, Hpos.
Qed.

Lemma join_no_control (sep : string) (l : list string) :
  no_control sep = true ->
  Forall (fun s => no_control s = true) l ->
  no_control (join sep l) = true.
Proof.
  intros Hsep Hl. induction Hl as [|x l Hx Hl IH]; [reflexivity|].
  destruct l as [|y l]; [exact Hx|].
  change (join sep (x :: y :: l)) with (x +:+ sep +:+ join sep (y :: l)).
  now rewrite !no_control_app, Hx, Hsep, IH.
Qed.

Lemma serialize_no_control (v : value) : no_control (serialize v) = true.
Proof.
  induction v as [| |b|n|s|items IH|props IH] using value_nested_ind;
    try reflexivity.
  - now destruct b.
  - apply Z_to_string_no_control.
  - apply quote_no_control.
  - cbn [serialize]. rewrite !no_control_app. cbn.
    rewrite join_no_control; [reflexivity | reflexivity |].
    induction IH; constructor; auto.
  - cbn [serialize]. rewrite !no_control_app. cbn.
    rewrite join_no_control; [reflexivity | reflexivity |].
    induction IH as [|[k x] props Hx Hprops IHprops]; [constructor|].
    cbn in Hx. destruct x; try (constructor; [|exact IHprops]);
      try exact IHprops;
      rewrite !no_control_app, quote_no_control; cbn; auto.
Qed.

(** X13. Whatever level, message and context it is given, a record that
    the logging helper prints is a string without any control byte: line
    breaks and other control characters in a request id, a path or an
    error message are escaped, so one record is always one line. *)
Theorem log_record_is_one_line (level message : string)
    (data : list (string * value)) (w : Runtime) (s s' : State) :
  log level message data w s = (inr tt, s') ->
  exists line,
    stdout s' = (stdout s ++ [VStr line])%list /\ no_control line = true.
Proof.
  intros H. unfold log, bind, new_Date_toISOString, console_log_call in H.
  destruct (toISOString w (dates s)) as [e|t]; [discriminate H|]. cbn in H.
  destruct (console_log w (log_calls s)) as [e|]; [discriminate H|].
  injection H as <-. cbn. rewrite JSON_stringify_object.
  eexists. split; [reflexivity|]. apply serialize_no_control.
Qed.

Lemma log_record_is_one_line_witness :
  exists line,
    stdout (snd (log "INFO" "Processing Hello World request"
                   [("path", VStr (String (ascii_of_N 10) "injected"))]
                   (Samples.steady ∅ 0) initial))
    = [VStr line]
    /\ no_control line = true.
Proof.
  exact (log_record_is_one_line "INFO" "Processing Hello World request"
           [("path", VStr (String (ascii_of_N 10) "injected"))]
           (Samples.steady ∅ 0) initial _ eq_refl).
Defined.

(** *** The memory bands in bytes *)

(** X14. In bytes, the memory classification puts a sample of at most
    93952409 bytes in "healthy", one from 93952410 to 120795955 bytes in
    "warning" and one of 120795956 bytes or more in "unhealthy"; these are
    the integral bounds of 70% and 90% of 134217728 bytes. *)
Theorem checkMemory_byte_thresholds (w : Runtime) (s : State) (h : Z) :
  memoryUsage w = inr h ->
  (h <= 93952409 -> Health.checkMemory w s = (inr "healthy", s))
  /\ (93952410 <= h <= 120795955 -> Health.checkMemory w s = (inr "warning", s))
  /\ (120795956 <= h -> Health.checkMemory w s = (inr "unhealthy", s)).
Proof.
  intros Hm. rewrite (checkMemory_sampled w s h Hm).
  destruct (memory_status_bands h) as (H1 & H2 & H3).
  unfold at_most_percent, above_percent, budget in *.
  repeat split.
  - intros Hle. rewrite H1; [reflexivity | lia].
  - intros [Hlo Hhi]. rewrite H2; [reflexivity | lia | lia].
  - intros Hge. rewrite H3; [reflexivity | lia].
Qed.

Lemma checkMemory_byte_thresholds_witness :
  Health.checkMemory (Samples.steady ∅ 93952410) initial = (inr "warning", initial)
  /\ Health.checkMemory (Samples.steady ∅ 93952409) initial = (inr "healthy", initial).
Proof.
  split.
  - apply (proj1 (proj2 (checkMemory_byte_thresholds
                           (Samples.steady ∅ 93952410) initial 93952410 eq_refl))).
    lia.
  - apply (proj1 (checkMemory_byte_thresholds
                    (Samples.steady ∅ 93952409) initial 93952409 eq_refl)).
    lia.
Defined.

(** X15. The memory classification is monotone: of two samples, the larger
    never gets the milder status. *)
Theorem checkMemory_monotone (w1 w2 : Runtime) (s : State) (h1 h2 : Z) :
  memoryUsage w1 = inr h1 -> memoryUsage w2 = inr h2 -> h1 <= h2 ->
  exists m1 m2,
    Health.checkMemory w1 s = (inr m1, s)
    /\ Health.checkMemory w2 s = (inr m2, s)
    /\ severity m1 <= severity m2.
Proof.
  intros Hm1 Hm2 Hle.
  rewrite (checkMemory_sampled w1 s h1 Hm1), (checkMemory_sampled w2 s h2 Hm2).
  do 2 eexists. split; [reflexivity|]. split; [reflexivity|].
  destruct (memory_status_bands h1) as (A1 & A2 & A3).
  destruct (memory_status_bands h2) as (B1 & B2 & B3).
  unfold at_most_percent, above_percent, budget in *.
  destruct (Z_lt_le_dec (90 * (128 * 1024 * 1024)) (100 * h1)) as [Hh|Hh].
  - rewrite A3, B3 by lia. reflexivity.
  - destruct (Z_lt_le_dec (70 * (128 * 1024 * 1024)) (100 * h1)) as [Hw|Hw].
    + rewrite A2 by lia.
      destruct (Z_lt_le_dec (90 * (128 * 1024 * 1024)) (100 * h2)) as [Hh2|Hh2].
      * rewrite B3 by lia. vm_compute. discriminate.
      * rewrite B2 by lia. reflexivity.
    + rewrite A1 by lia.
      destruct (Z_lt_le_dec (90 * (128 * 1024 * 1024)) (100 * h2)) as [Hh2|Hh2].
      * rewrite B3 by lia. vm_compute. discriminate.
      * destruct (Z_lt_le_dec (70 * (128 * 1024 * 1024)) (100 * h2)) as [Hw2|Hw2].
        -- rewrite B2 by lia. vm_compute. discriminate.
        -- rewrite B1 by lia. reflexivity.
Qed.

Lemma checkMemory_monotone_witness :
  exists m1 m2,
    Health.checkMemory (Samples.steady ∅ (95 * Samples.MiB)) initial = (inr m1, initial)
    /\ Health.checkMemory (Samples.steady ∅ (120 * Samples.MiB)) initial
       = (inr m2, initial)
    /\ severity m1 <= severity m2.
Proof.
  apply (checkMemory_monotone (Samples.steady ∅ (95 * Samples.MiB))
           (Samples.steady ∅ (120 * Samples.MiB)) initial
           (95 * Samples.MiB) (120 * Samples.MiB)).
  - reflexivity.
  - reflexivity.
  - vm_compute. discriminate.
Defined.

(** *** A request id of any type *)

(** X16. The request id is chosen by truthiness, not by type: whatever
    value [requestContext.requestId] holds, when the logger works both
    handlers answer with that very value as [X-Request-Id] if it is truthy
    (so a number or an object is passed on as it is, not as a string), and
    with "unknown" if it is falsy ([undefined], [null], [false], [0],
    the empty string). *)
Theorem requestId_chosen_by_truthiness (ps : list (string * value)) (w : Runtime) :
  logging_works w ->
  exists r1 r2,
    outcome Hello.handler (VObj ps) w = Resolved r1
    /\ outcome Health.handler (VObj ps) w = Resolved r2
    /\ (truthy (requestId_of (VObj ps)) = true ->
        header r1 "X-Request-Id" = requestId_of (VObj ps)
        /\ header r2 "X-Request-Id" = requestId_of (VObj ps))
    /\ (truthy (requestId_of (VObj ps)) = false ->
        header r1 "X-Request-Id" = VStr "unknown"
        /\ header r2 "X-Request-Id" = VStr "unknown").
Proof.
  intros Hl. destruct (logging_timestamps w Hl) as (t1 & t2 & Ht1 & Ht2).
  assert (H1 : exists r1, outcome Hello.handler (VObj ps) w = Resolved r1
                          /\ header r1 "X-Request-Id" = chosen_requestId (VObj ps)).
  { rewrite (hello_outcome_logging ps w t1 Hl Ht1).
    destruct (Date_now w 0%nat); [|destruct (Date_now w 1%nat)];
      eexists; split; reflexivity. }
  assert (H2 : exists r2, outcome Health.handler (VObj ps) w = Resolved r2
                          /\ header r2 "X-Request-Id" = chosen_requestId (VObj ps)).
  { rewrite (health_outcome_logging ps w t1 t2 Hl Ht1 Ht2).
    destruct (memoryUsage w); eexists; split; reflexivity. }
  destruct H1 as (r1 & Hr1 & Hh1). destruct H2 as (r2 & Hr2 & Hh2).
  exists r1, r2. split; [exact Hr1|]. split; [exact Hr2|].
  rewrite Hh1, Hh2. unfold chosen_requestId, or_else.
  split; intros ->; split; reflexivity.
Qed.

Lemma requestId_chosen_by_truthiness_witness :
  exists r1 r2,
    outcome Hello.handler
      (VObj [("requestContext", VObj [("requestId", VNum 5)])])
      (Samples.steady ∅ (10 * Samples.MiB)) = Resolved r1
    /\ outcome Health.handler
         (VObj [("requestContext", VObj [("requestId", VNum 5)])])
         (Samples.steady ∅ (10 * Samples.MiB)) = Resolved r2
    /\ header r1 "X-Request-Id" = VNum 5
    /\ header r2 "X-Request-Id" = VNum 5.
Proof.
  destruct (requestId_chosen_by_truthiness
              [("requestContext", VObj [("requestId", VNum 5)])]
              (Samples.steady ∅ (10 * Samples.MiB)))
    as (r1 & r2 & Hr1 & Hr2 & Htrue & _).
  - sample_runtime.
  - exists r1, r2. split; [exact Hr1|]. split; [exact Hr2|].
    apply Htrue. reflexivity.
Defined.
